(** * OneLogin multi-factor plugin: the authenticator and the dialogue

    A shallow embedding of [lib/exceptions.py], [lib/authenticator.py] and
    [lib/plugin.py].  Python exceptions become a [Raise] result, every
    method threads the state it can touch, and the identity provider's client
    is a record of answers together with a journal of the calls it received. *)

From Stdlib Require Import ZArith String Ascii List Lia.
From stdpp Require Import base option list gmap strings pretty.
From Equations Require Import Equations.

Local Open Scope string_scope.
Local Open Scope Z_scope.

(** ** lib/exceptions.py, and the builtin errors the plugin meets *)

(** Each constructor carries the message given to the exception.  All of
    them derive from Python's [Exception]. *)
Inductive exn : Type :=
  | OneLoginClientError (msg : string)
  | UserNotFound (msg : string)
  | FactorNotFound (msg : string)
  | TimeOutError (msg : string)
  | APIResponseError (msg : string)
  | ValueError (msg : string)
  | TypeError (msg : string)
  | IndexError (msg : string)
  | KeyError (msg : string).

(** The classes of [lib/exceptions.py]: those below [PluginError]. *)
Definition is_PluginError (e : exn) : bool :=
  match e with
  | OneLoginClientError _ | UserNotFound _ | FactorNotFound _
  | TimeOutError _ | APIResponseError _ => true
  | ValueError _ | TypeError _ | IndexError _ | KeyError _ => false
  end.

(** ** Computations that may raise *)

Inductive Result (A : Type) : Type :=
  | Ok (a : A)
  | Raise (e : exn).
Arguments Ok {A} a.
Arguments Raise {A} e.

(** A method over a state [S]: it returns or raises, and leaves a state. *)
Definition M (S A : Type) : Type := S → Result A * S.

Definition ret {S A} (a : A) : M S A := λ s, (Ok a, s).
Definition raise {S A} (e : exn) : M S A := λ s, (Raise e, s).
Definition bind {S A B} (m : M S A) (k : A → M S B) : M S B :=
  λ s, match m s with
       | (Ok a, s') => k a s'
       | (Raise e, s') => (Raise e, s')
       end.
Definition get {S} : M S S := λ s, (Ok s, s).
Definition modify {S} (f : S → S) : M S unit := λ s, (Ok tt, f s).

(** [try: body except handler]: [handler e] is [None] when no clause of the
    [except] matches [e], which then propagates. *)
Definition try_except {S A} (body : M S A) (handler : exn → option (M S A))
  : M S A :=
  λ s, match body s with
       | (Ok a, s') => (Ok a, s')
       | (Raise e, s') =>
           match handler e with
           | Some h => h s'
           | None => (Raise e, s')
           end
       end.

Declare Scope py_scope.
Delimit Scope py_scope with py.
Notation "'let!' x ':=' m 'in' k" := (bind m (λ x, k))
  (at level 10, x pattern, m at level 100, k at level 200) : py_scope.
Notation "m ';;;' k" := (bind m (λ _, k))
  (at level 100, k at level 200, right associativity) : py_scope.
Local Open Scope py_scope.

(** ** The provider's client (onelogin.api.client.OneLoginClient) *)

Record User := { user_id : Z }.

Record OTP_Device := {
  device_id : Z;
  user_display_name : string;
  default : bool
}.

Record FactorEnrollmentResponse := { activation_id : Z }.

Record PollResponse := { status : string }.

(** The answers of the provider.  A lookup or an activation that fails
    answers [None] and leaves its explanation in [error_description]; these
    are the answers the code tests for.  [verify_factor] and the poll are
    taken to answer, as the code takes them: it reads [response.status]
    untested, and a poll that fails is not followed.  The answer to a poll
    depends on how many polls came before it; [poll_latency k] is the time
    the [k]-th poll takes (a negative entry counts as zero). *)
Record OneLoginClient := {
  get_users : string → string → option (list User);
  get_enrolled_factors_of : Z → option (list OTP_Device);
  verify_factor : Z → Z → string → bool;
  activate_factor : Z → Z → option Z → option FactorEnrollmentResponse;
  verify_factor_poll : Z → Z → nat → PollResponse;
  poll_latency : nat → Z;
  error_description : string
}.

(** The calls the client has received, oldest first. *)
Inductive Call : Type :=
  | CGetUsers (attribute username : string)
  | CGetEnrolledFactors (uid : Z)
  | CVerifyFactor (uid fid : Z) (otp : string)
  | CActivateFactor (uid fid : Z) (expires_in : option Z)
  | CVerifyFactorPoll (uid aid : Z).

(** What lies outside the process: the wall clock (in seconds), the number
    of polls answered so far, and the journal of calls. *)
Record World := {
  clock : Z;
  npolls : nat;
  calls : list Call
}.

Definition record_call (c : Call) (w : World) : World :=
  {| clock := clock w; npolls := npolls w; calls := calls w ++ [c] |}.

Definition advance (dt : Z) (w : World) : World :=
  {| clock := clock w + dt; npolls := npolls w; calls := calls w |}.

Definition count_poll (w : World) : World :=
  {| clock := clock w; npolls := S (npolls w); calls := calls w |}.

(** [datetime.now()] and [time.sleep(n)] *)
Definition now : M World Z := λ w, (Ok (clock w), w).
Definition sleep (n : Z) : M World unit := modify (advance n).

(** ** lib/authenticator.py *)

Module Authenticator.

Definition PUSH_VERIFICATION_POLL_FREQUENCY : Z := 5.
Definition PUSH_VERIFICATION_POLL_TIMEOUT : Z := 60.

Record t := {
  _user_attribute : string;
  _client : OneLoginClient
}.

Section Methods.
Variable self : t.

Definition client_get_users (username : string) : M World (option (list User)) :=
  modify (record_call (CGetUsers (_user_attribute self) username));;;
  ret (get_users (_client self) (_user_attribute self) username).

Definition client_get_enrolled_factors (uid : Z)
  : M World (option (list OTP_Device)) :=
  modify (record_call (CGetEnrolledFactors uid));;;
  ret (get_enrolled_factors_of (_client self) uid).

Definition client_verify_factor (uid fid : Z) (otp : string) : M World bool :=
  modify (record_call (CVerifyFactor uid fid otp));;;
  ret (verify_factor (_client self) uid fid otp).

Definition client_activate_factor (uid fid : Z) (expires_in : option Z)
  : M World (option FactorEnrollmentResponse) :=
  modify (record_call (CActivateFactor uid fid expires_in));;;
  ret (activate_factor (_client self) uid fid expires_in).

Definition client_verify_factor_poll (uid aid : Z) : M World PollResponse :=
  let! w := get in
  modify (record_call (CVerifyFactorPoll uid aid));;;
  modify (advance (Z.max 0 (poll_latency (_client self) (npolls w))));;;
  modify count_poll;;;
  ret (verify_factor_poll (_client self) uid aid (npolls w)).

(** [users.pop()] on a list: its last element. *)
Definition _get_user (username : string) : M World User :=
  let! users := client_get_users username in
  match users with
  | None => raise (APIResponseError (error_description (_client self)))
  | Some users =>
      if decide (1 < Z.of_nat (length users)) then
        raise (APIResponseError
                 ("More than one user found for user: " +:+ username +:+
                  " based on attribute: " +:+ _user_attribute self))
      else if decide (Z.of_nat (length users) < 1) then
        raise (UserNotFound
                 ("No user found for user: " +:+ username +:+
                  " based on attribute: " +:+ _user_attribute self))
      else
        match last users with
        | Some u => ret u
        | None => raise (IndexError "pop from empty list")
        end
  end.

Definition get_enrolled_factors (username : string) : M World (list OTP_Device) :=
  let! user := _get_user username in
  let! factors := client_get_enrolled_factors (user_id user) in
  match factors with
  | None => raise (APIResponseError (error_description (_client self)))
  | Some factors => ret factors
  end.

(** [next((factor for factor in factors if factor.default), None)] *)
Fixpoint next_default (factors : list OTP_Device) : option OTP_Device :=
  match factors with
  | [] => None
  | factor :: rest => if default factor then Some factor else next_default rest
  end.

Definition _get_default_factor (username : string) : M World OTP_Device :=
  let! factors := get_enrolled_factors username in
  match next_default factors with
  | None => raise (FactorNotFound "No default MFA factor found")
  | Some default_factor => ret default_factor
  end.

Definition _activate_factor (uid fid : Z) (expires_in : option Z)
  : M World FactorEnrollmentResponse :=
  let! response := client_activate_factor uid fid expires_in in
  match response with
  | None => raise (APIResponseError (error_description (_client self)))
  | Some response => ret response
  end.

(** [factor_id or self._get_default_factor(username).id]: the right operand
    is evaluated only when the left one is falsy, that is [None] or [0]. *)
Definition factor_id_or_default (factor_id : option Z) (username : string)
  : M World Z :=
  match factor_id with
  | Some f =>
      if decide (f = 0) then
        let! d := _get_default_factor username in ret (device_id d)
      else ret f
  | None => let! d := _get_default_factor username in ret (device_id d)
  end.

Definition otp_authenticate (username otp : string) (factor_id : option Z)
  : M World bool :=
  let! user := _get_user username in
  let! factor_id := factor_id_or_default factor_id username in
  client_verify_factor (user_id user) factor_id otp.

(** The [while expires_at > datetime.now()] loop of [push_authenticate],
    on the world [w] it starts from.  A pending round sleeps
    [PUSH_VERIFICATION_POLL_FREQUENCY] seconds, so the time left before
    [expires_at] decreases from one round to the next. *)
Equations? poll_loop (uid aid expires_at : Z) (w : World)
  : Result bool * World by wf (Z.to_nat (expires_at - clock w)) lt :=
poll_loop uid aid expires_at w with decide (clock w < expires_at) := {
  | left _ =>
      match (client_verify_factor_poll uid aid w).1 with
      | Ok response =>
          if String.eqb (status response) "pending" then
            poll_loop uid aid expires_at
              (advance PUSH_VERIFICATION_POLL_FREQUENCY
                 (client_verify_factor_poll uid aid w).2)
          else if String.eqb (status response) "accepted" then
            (Ok true, (client_verify_factor_poll uid aid w).2)
          else if String.eqb (status response) "rejected" then
            (Ok false, (client_verify_factor_poll uid aid w).2)
          else
            (Raise (APIResponseError
                      ("Push verification status not recognized: " +:+
                       status response)),
             (client_verify_factor_poll uid aid w).2)
      | Raise e => (Raise e, (client_verify_factor_poll uid aid w).2)
      end
  | right _ => (Raise (TimeOutError "Push verification timed out"), w) }.
Proof. unfold PUSH_VERIFICATION_POLL_FREQUENCY. cbn. lia. Qed.

Definition push_authenticate (username : string) (factor_id : option Z)
  : M World bool :=
  let! user := _get_user username in
  let! factor_id := factor_id_or_default factor_id username in
  let! activation :=
    _activate_factor (user_id user) factor_id
      (Some PUSH_VERIFICATION_POLL_TIMEOUT) in
  let! t := now in
  let expires_at := t + PUSH_VERIFICATION_POLL_TIMEOUT in
  poll_loop (user_id user) (activation_id activation) expires_at.

End Methods.
End Authenticator.

(** ** Python builtins used by the plugin *)

Definition newline : string := String (ascii_of_nat 10) "".

(** The whitespace [int()] skips around an ASCII literal: tab, line feed,
    vertical tab, form feed, carriage return and space. *)
Definition is_space (c : ascii) : bool :=
  let n := nat_of_ascii c in
  ((9 <=? n)%nat && (n <=? 13)%nat) || (n =? 32)%nat.

Fixpoint lstrip (s : string) : string :=
  match s with
  | String c rest => if is_space c then lstrip rest else s
  | EmptyString => EmptyString
  end.

Definition strip (s : string) : string :=
  String.rev (lstrip (String.rev (lstrip s))).

Definition digit_value (c : ascii) : option Z :=
  let n := nat_of_ascii c in
  if ((48 <=? n)%nat && (n <=? 57)%nat)%bool
  then Some (Z.of_nat (n - 48)) else None.

(** Decimal digits, where one underscore may stand between two digits. *)
Fixpoint int_digits (acc : Z) (after_digit : bool) (s : string) : option Z :=
  match s with
  | EmptyString => if after_digit then Some acc else None
  | String c rest =>
      match digit_value c with
      | Some d => int_digits (10 * acc + d) true rest
      | None =>
          if (Ascii.eqb c "_" && after_digit)%bool
          then int_digits acc false rest
          else None
      end
  end.

(** [int(s)], base ten, for a string [s] of ASCII characters: [None]
    stands for the [ValueError].  The builtin is followed on ASCII strings
    only, and no further: it also reads the decimal digits of other scripts
    and skips the blanks of Unicode, where every byte outside ASCII is
    rejected here, and recent interpreters refuse a numeral of more than
    4300 digits, which is read here. *)
Definition int_of_string (s : string) : option Z :=
  match strip s with
  | String c rest =>
      if Ascii.eqb c "+" then int_digits 0 false rest
      else if Ascii.eqb c "-" then Z.opp <$> int_digits 0 false rest
      else int_digits 0 false (String c rest)
  | EmptyString => None
  end.

(** [int(x)] where [x] is a string or [None]. *)
Definition py_int {S} (x : option string) : M S Z :=
  match x with
  | None =>
      raise (TypeError
               ("int() argument must be a string, a bytes-like object or a " +:+
                "real number, not 'NoneType'"))
  | Some s =>
      match int_of_string s with
      | Some n => ret n
      | None =>
          raise (ValueError
                   ("invalid literal for int() with base 10: '" +:+ s +:+ "'"))
      end
  end.

(** [l[index]] for [0 <= index]. *)
Definition list_getitem {S A} (l : list A) (index : Z) : M S A :=
  match l !! Z.to_nat index with
  | Some x => ret x
  | None => raise (IndexError "list index out of range")
  end.

(** ** The host's side of the plugin (safeguard.sessions.plugin) *)

Inductive AAResponse : Type :=
  | accept (reason : string)
  | deny (deny_reason : string)
  | need_info (question key : string).

Record Connection := {
  protocol : string;
  key_value_pairs : gmap string string
}.

(** ** lib/plugin.py *)

Module Plugin.

Definition FACTOR_SELECTION_SUPPORTED_PROTOCOLS : list string := ["ssh"; "telnet"].

(** [self]: the configuration read by [__init__], what the host hands over
    for the turn, the three cookie properties, the errors given to the
    logger, and the world the authenticator talks to.  [mfa_password] is the
    credential as the host hands it over at the start of the turn, which is
    where [do_authenticate] reads it; what the host makes of it once the
    buffered answers have changed is not followed. *)
Record t := {
  _authenticator : Authenticator.t;
  _factor_selection_enabled : bool;
  _enable_stacktrace : bool;
  connection : Connection;
  mfa_identity : string;
  mfa_password : option string;
  mfa_question : string;
  mfa_question_key : string;
  _factor_selection_in_progress : bool;
  _enrolled_factors : list (Z * string);
  _user_selected_factor_id : option Z;
  logged_errors : list exn;
  world : World
}.

Definition set_connection (c : Connection) (self : t) : t :=
  {| _authenticator := _authenticator self;
     _factor_selection_enabled := _factor_selection_enabled self;
     _enable_stacktrace := _enable_stacktrace self;
     connection := c;
     mfa_identity := mfa_identity self;
     mfa_password := mfa_password self;
     mfa_question := mfa_question self;
     mfa_question_key := mfa_question_key self;
     _factor_selection_in_progress := _factor_selection_in_progress self;
     _enrolled_factors := _enrolled_factors self;
     _user_selected_factor_id := _user_selected_factor_id self;
     logged_errors := logged_errors self;
     world := world self |}.

Definition set_factor_selection_in_progress (b : bool) (self : t) : t :=
  {| _authenticator := _authenticator self;
     _factor_selection_enabled := _factor_selection_enabled self;
     _enable_stacktrace := _enable_stacktrace self;
     connection := connection self;
     mfa_identity := mfa_identity self;
     mfa_password := mfa_password self;
     mfa_question := mfa_question self;
     mfa_question_key := mfa_question_key self;
     _factor_selection_in_progress := b;
     _enrolled_factors := _enrolled_factors self;
     _user_selected_factor_id := _user_selected_factor_id self;
     logged_errors := logged_errors self;
     world := world self |}.

Definition set_enrolled_factors (l : list (Z * string)) (self : t) : t :=
  {| _authenticator := _authenticator self;
     _factor_selection_enabled := _factor_selection_enabled self;
     _enable_stacktrace := _enable_stacktrace self;
     connection := connection self;
     mfa_identity := mfa_identity self;
     mfa_password := mfa_password self;
     mfa_question := mfa_question self;
     mfa_question_key := mfa_question_key self;
     _factor_selection_in_progress := _factor_selection_in_progress self;
     _enrolled_factors := l;
     _user_selected_factor_id := _user_selected_factor_id self;
     logged_errors := logged_errors self;
     world := world self |}.

Definition set_user_selected_factor_id (f : option Z) (self : t) : t :=
  {| _authenticator := _authenticator self;
     _factor_selection_enabled := _factor_selection_enabled self;
     _enable_stacktrace := _enable_stacktrace self;
     connection := connection self;
     mfa_identity := mfa_identity self;
     mfa_password := mfa_password self;
     mfa_question := mfa_question self;
     mfa_question_key := mfa_question_key self;
     _factor_selection_in_progress := _factor_selection_in_progress self;
     _enrolled_factors := _enrolled_factors self;
     _user_selected_factor_id := f;
     logged_errors := logged_errors self;
     world := world self |}.

Definition set_logged_errors (l : list exn) (self : t) : t :=
  {| _authenticator := _authenticator self;
     _factor_selection_enabled := _factor_selection_enabled self;
     _enable_stacktrace := _enable_stacktrace self;
     connection := connection self;
     mfa_identity := mfa_identity self;
     mfa_password := mfa_password self;
     mfa_question := mfa_question self;
     mfa_question_key := mfa_question_key self;
     _factor_selection_in_progress := _factor_selection_in_progress self;
     _enrolled_factors := _enrolled_factors self;
     _user_selected_factor_id := _user_selected_factor_id self;
     logged_errors := l;
     world := world self |}.

Definition set_world (w : World) (self : t) : t :=
  {| _authenticator := _authenticator self;
     _factor_selection_enabled := _factor_selection_enabled self;
     _enable_stacktrace := _enable_stacktrace self;
     connection := connection self;
     mfa_identity := mfa_identity self;
     mfa_password := mfa_password self;
     mfa_question := mfa_question self;
     mfa_question_key := mfa_question_key self;
     _factor_selection_in_progress := _factor_selection_in_progress self;
     _enrolled_factors := _enrolled_factors self;
     _user_selected_factor_id := _user_selected_factor_id self;
     logged_errors := logged_errors self;
     world := w |}.

(** A call into the authenticator: it acts on the world only. *)
Definition call {A} (m : M World A) : M t A :=
  λ self, let (r, w) := m (world self) in (r, set_world w self).

(** [self.logger.error(e, ...)]; the [info] and [debug] records change
    neither the state nor the decision and are left out. *)
Definition logger_error (e : exn) : M t unit :=
  modify (λ self, set_logged_errors (logged_errors self ++ [e]) self).

(** [self.connection.key_value_pairs.pop(key)] *)
Definition key_value_pairs_pop (key : string) : M t string :=
  let! self := get in
  match key_value_pairs (connection self) !! key with
  | Some v =>
      modify (set_connection
                {| protocol := protocol (connection self);
                   key_value_pairs :=
                     delete key (key_value_pairs (connection self)) |});;;
      ret v
  | None => raise (KeyError ("'" +:+ key +:+ "'"))
  end.

(** Modelled from the spec: [_ask_mfa_password] belongs to the host's
    [AAPlugin] base class, which is not part of the sources.  Section 4.2,
    step 1 has it request the MFA credential by a need-more-input
    decision; the question and its field name are the host's. *)
Definition _ask_mfa_password : M t AAResponse :=
  let! self := get in
  ret (need_info (mfa_question self) (mfa_question_key self)).

Definition _factor_selection_supported (self : t) : bool :=
  bool_decide (protocol (connection self) ∈ FACTOR_SELECTION_SUPPORTED_PROTOCOLS).

(** The [for position, factor in enumerate(..., start=1)] loop. *)
Fixpoint prompt_loop (position : nat) (factors : list (Z * string))
    (prompt : string) : string :=
  match factors with
  | [] => prompt
  | factor :: rest =>
      let factor_display_name := factor.2 in
      prompt_loop (S position) rest
        (prompt +:+ (pretty position +:+ ") " +:+ factor_display_name +:+ newline))
  end.

Definition _factor_selection_prompt (self : t) : string :=
  let prompt := prompt_loop 1 (_enrolled_factors self) "" in
  prompt +:+ "Select a factor: ".

Definition _init_factor_selection : M t AAResponse :=
  let! self := get in
  let! enrolled_factors :=
    call (Authenticator.get_enrolled_factors (_authenticator self)
            (mfa_identity self)) in
  match enrolled_factors with
  | [] => ret (deny "No factors found")
  | _ :: _ =>
      modify (set_enrolled_factors
                ((λ f, (device_id f, user_display_name f)) <$> enrolled_factors));;;
      modify (set_factor_selection_in_progress true);;;
      let! self := get in
      ret (need_info (_factor_selection_prompt self) "user_factor_selection")
  end.

(** The [try] block yields [None] when it runs to its end; the [except]
    clause returns the deny decision. *)
Definition _finish_factor_selection : M t AAResponse :=
  modify (set_factor_selection_in_progress false);;;
  let! returned :=
    try_except
      (let! self := get in
       let selection :=
         key_value_pairs (connection self) !! "user_factor_selection" in
       let! n := py_int selection in
       let index := n - 1 in
       if decide (index < 0) then raise (ValueError "")
       else
         let! factor := list_getitem (_enrolled_factors self) index in
         modify (set_user_selected_factor_id (Some factor.1));;;
         ret None)
      (λ e, match e with
            | ValueError _ | TypeError _ | IndexError _ =>
                Some (ret (Some (deny "Invalid selection")))
            | _ => None
            end) in
  match returned with
  | Some response => ret response
  | None =>
      key_value_pairs_pop "otp";;;
      _ask_mfa_password
  end.

Definition _run_factor_selection_command : M t AAResponse :=
  let! self := get in
  if negb (_factor_selection_enabled self) then
    ret (deny "Factor selection not available")
  else if negb (_factor_selection_supported self) then
    ret (deny "Factor selection not supported")
  else _init_factor_selection.

(** Truth value of [self.mfa_password]: neither [None] nor empty. *)
Definition password_given (p : option string) : bool :=
  match p with
  | Some s => negb (String.eqb s "")
  | None => false
  end.

(** The body of the [try] statement of [do_authenticate]. *)
Definition do_authenticate_try : M t AAResponse :=
  let! self := get in
  if _factor_selection_in_progress self then _finish_factor_selection
  else if password_given (mfa_password self) then
    if bool_decide (mfa_password self = Some "!select") then
      _run_factor_selection_command
    else
      let! ok :=
        call (Authenticator.otp_authenticate (_authenticator self)
                (mfa_identity self) (from_option id "" (mfa_password self))
                (_user_selected_factor_id self)) in
      if ok then ret (accept "OTP authentication successful")
      else ret (deny "OTP authentication failed")
  else
    let! ok :=
      call (Authenticator.push_authenticate (_authenticator self)
              (mfa_identity self) (_user_selected_factor_id self)) in
    if ok then ret (accept "Push verification successful")
    else ret (deny "Push verification failed").

(** Every path of the [try] body returns; the [except Exception] clause
    logs the error and falls through to the last [return]. *)
Definition do_authenticate : M t AAResponse :=
  try_except do_authenticate_try
    (λ e, Some (logger_error e;;; ret (deny "An error occured"))).

End Plugin.

(** * Vocabulary of the statements *)

(** The world after one poll has been answered (before any sleep). *)
Definition after_poll (self : Authenticator.t) (uid aid : Z) (w : World) : World :=
  (Authenticator.client_verify_factor_poll self uid aid w).2.

(** Time between the first check of the deadline and the [k]-th one, when
    the polls from number [first] on are all pending: each round lasts the
    poll itself and the sleep after it. *)
Fixpoint poll_started (latency : nat → Z) (first k : nat) : Z :=
  match k with
  | O => 0
  | S k' =>
      Z.max 0 (latency first) + Authenticator.PUSH_VERIFICATION_POLL_FREQUENCY
      + poll_started latency (S first) k'
  end.

(** The world after [n] pending rounds. *)
Definition after_rounds (self : Authenticator.t) (uid aid : Z) (n : nat)
    (w : World) : World :=
  {| clock := clock w
              + poll_started (poll_latency (Authenticator._client self)) (npolls w) n;
     npolls := npolls w + n;
     calls := calls w ++ replicate n (CVerifyFactorPoll uid aid) |}.

(** The status the provider gives to the poll number [k]. *)
Definition poll_status (self : Authenticator.t) (uid aid : Z) (k : nat) : string :=
  status (verify_factor_poll (Authenticator._client self) uid aid k).

(** The selection prompt in the words of the specification: one line
    "<position>) <displayName>" per factor, numbered from one in the order of
    the list, then the line that asks for the selection. *)
Definition prompt_line (position : nat) (display_name : string) : string :=
  pretty position +:+ ") " +:+ display_name +:+ newline.

Definition enumerated_prompt (factors : list (Z * string)) : string :=
  foldr String.append "" (imap (λ i factor, prompt_line (S i) factor.2) factors)
  +:+ "Select a factor: ".

(** The cookie entry kept for an enrolled factor. *)
Definition cookie_entry (f : OTP_Device) : Z * string :=
  (device_id f, user_display_name f).

(** The connection once the buffered one-time code is discarded. *)
Definition without_otp (c : Connection) : Connection :=
  {| protocol := protocol c;
     key_value_pairs := delete "otp" (key_value_pairs c) |}.

(** What the loop does with a status that is not [pending]. *)
Definition verdict (s : string) : Result bool :=
  if String.eqb s "accepted" then Ok true
  else if String.eqb s "rejected" then Ok false
  else Raise (APIResponseError
                ("Push verification status not recognized: " +:+ s)).


(** * Vocabulary of the further properties *)

(** The errors of a lookup at the provider. *)
Definition is_lookup_error (e : exn) : bool :=
  match e with
  | APIResponseError _ | UserNotFound _ | FactorNotFound _ => true
  | _ => false
  end.

(** The status that stands behind a returned boolean. *)
Definition status_of (accepted : bool) : string :=
  if accepted then "accepted" else "rejected".

(** Only the journal differs between two worlds. *)
Definition same_time (w w' : World) : Prop :=
  clock w' = clock w ∧ npolls w' = npolls w.

(** The decision the [try] body takes from the authenticator's answer. *)
Definition decision_of (accepted denied : string) (r : Result bool)
  : Result AAResponse :=
  match r with
  | Ok true => Ok (accept accepted)
  | Ok false => Ok (deny denied)
  | Raise e => Raise e
  end.

(** The paths through the [try] body of [do_authenticate]: what it yields
    and the state it leaves, path by path. *)
Inductive try_outcome (self : Plugin.t) : Result AAResponse → Plugin.t → Prop :=
  | answer_invalid :
      Plugin._factor_selection_in_progress self = true →
      try_outcome self (Ok (deny "Invalid selection"))
        (Plugin.set_factor_selection_in_progress false self)
  | answer_stored factor otp :
      Plugin._factor_selection_in_progress self = true →
      factor ∈ Plugin._enrolled_factors self →
      key_value_pairs (Plugin.connection self) !! "otp" = Some otp →
      try_outcome self
        (Ok (need_info (Plugin.mfa_question self) (Plugin.mfa_question_key self)))
        (Plugin.set_connection (without_otp (Plugin.connection self))
           (Plugin.set_user_selected_factor_id (Some factor.1)
              (Plugin.set_factor_selection_in_progress false self)))
  | answer_without_otp factor :
      Plugin._factor_selection_in_progress self = true →
      factor ∈ Plugin._enrolled_factors self →
      key_value_pairs (Plugin.connection self) !! "otp" = None →
      try_outcome self (Raise (KeyError "'otp'"))
        (Plugin.set_user_selected_factor_id (Some factor.1)
           (Plugin.set_factor_selection_in_progress false self))
  | select_disabled :
      Plugin._factor_selection_in_progress self = false →
      Plugin.mfa_password self = Some "!select" →
      try_outcome self (Ok (deny "Factor selection not available")) self
  | select_unsupported :
      Plugin._factor_selection_in_progress self = false →
      Plugin.mfa_password self = Some "!select" →
      try_outcome self (Ok (deny "Factor selection not supported")) self
  | select_failed e w :
      Plugin._factor_selection_in_progress self = false →
      Plugin.mfa_password self = Some "!select" →
      Authenticator.get_enrolled_factors (Plugin._authenticator self)
        (Plugin.mfa_identity self) (Plugin.world self) = (Raise e, w) →
      try_outcome self (Raise e) (Plugin.set_world w self)
  | select_nothing w :
      Plugin._factor_selection_in_progress self = false →
      Plugin.mfa_password self = Some "!select" →
      Authenticator.get_enrolled_factors (Plugin._authenticator self)
        (Plugin.mfa_identity self) (Plugin.world self) = (Ok [], w) →
      try_outcome self (Ok (deny "No factors found")) (Plugin.set_world w self)
  | select_started f factors w :
      Plugin._factor_selection_in_progress self = false →
      Plugin.mfa_password self = Some "!select" →
      Authenticator.get_enrolled_factors (Plugin._authenticator self)
        (Plugin.mfa_identity self) (Plugin.world self) = (Ok (f :: factors), w) →
      try_outcome self
        (Ok (need_info (enumerated_prompt (cookie_entry <$> f :: factors))
               "user_factor_selection"))
        (Plugin.set_factor_selection_in_progress true
           (Plugin.set_enrolled_factors (cookie_entry <$> f :: factors)
              (Plugin.set_world w self)))
  | otp_turn password r w :
      Plugin._factor_selection_in_progress self = false →
      Plugin.mfa_password self = Some password →
      password ≠ "" → password ≠ "!select" →
      Authenticator.otp_authenticate (Plugin._authenticator self)
        (Plugin.mfa_identity self) password
        (Plugin._user_selected_factor_id self) (Plugin.world self) = (r, w) →
      try_outcome self
        (decision_of "OTP authentication successful" "OTP authentication failed" r)
        (Plugin.set_world w self)
  | push_turn r w :
      Plugin._factor_selection_in_progress self = false →
      Plugin.password_given (Plugin.mfa_password self) = false →
      Authenticator.push_authenticate (Plugin._authenticator self)
        (Plugin.mfa_identity self)
        (Plugin._user_selected_factor_id self) (Plugin.world self) = (r, w) →
      try_outcome self
        (decision_of "Push verification successful" "Push verification failed" r)
        (Plugin.set_world w self).

(** The wording of the decisions. *)
Definition accept_reasons : list string :=
  ["OTP authentication successful"; "Push verification successful"].

Definition deny_reasons : list string :=
  ["Invalid selection"; "Factor selection not available";
   "Factor selection not supported"; "No factors found";
   "OTP authentication failed"; "Push verification failed";
   "An error occured"].

(** Strings of decimal digits. *)
Fixpoint digits_only (s : string) : Prop :=
  match s with
  | EmptyString => True
  | String c rest => is_Some (digit_value c) ∧ digits_only rest
  end.

(** The calls that look a user or its factors up. *)
Definition is_lookup (c : Call) : bool :=
  match c with
  | CGetUsers _ _ | CGetEnrolledFactors _ => true
  | _ => false
  end.

(** The turn the host makes of [self] for another credential. *)
Definition with_password (password : option string) (self : Plugin.t) : Plugin.t :=
  {| Plugin._authenticator := Plugin._authenticator self;
     Plugin._factor_selection_enabled := Plugin._factor_selection_enabled self;
     Plugin._enable_stacktrace := Plugin._enable_stacktrace self;
     Plugin.connection := Plugin.connection self;
     Plugin.mfa_identity := Plugin.mfa_identity self;
     Plugin.mfa_password := password;
     Plugin.mfa_question := Plugin.mfa_question self;
     Plugin.mfa_question_key := Plugin.mfa_question_key self;
     Plugin._factor_selection_in_progress :=
       Plugin._factor_selection_in_progress self;
     Plugin._enrolled_factors := Plugin._enrolled_factors self;
     Plugin._user_selected_factor_id := Plugin._user_selected_factor_id self;
     Plugin.logged_errors := Plugin.logged_errors self;
     Plugin.world := Plugin.world self |}.

(** The OTP verification as the specification states it: whatever factor
    id is given, the answer is the provider's for that very factor. *)
Definition otp_as_specified (self : Authenticator.t) (username otp : string)
    (factor_id : option Z) (w : World) : Prop :=
  ∀ user f,
    get_users (Authenticator._client self) (Authenticator._user_attribute self)
      username = Some [user] →
    factor_id = Some f →
    (Authenticator.otp_authenticate self username otp factor_id w).1
    = Ok (verify_factor (Authenticator._client self) (user_id user) f otp).

(** * A sample provider and sample turns *)

Module Sample.

Definition device_a : OTP_Device :=
  {| device_id := 7; user_display_name := "Device A"; default := false |}.
Definition device_b : OTP_Device :=
  {| device_id := 9; user_display_name := "Device B"; default := true |}.

(** One user "alice", two users "twins", a failing lookup for "down", nobody
    else; the code 123456 is right for device B; a push is pending three
    times, then accepted, and every poll takes a second. *)
Definition client : OneLoginClient :=
  {| get_users := λ _ username,
       if String.eqb username "alice" then Some [ {| user_id := 42 |} ]
       else if String.eqb username "twins"
            then Some [ {| user_id := 1 |}; {| user_id := 2 |} ]
       else if String.eqb username "down" then None
       else Some [];
     get_enrolled_factors_of := λ _, Some [device_a; device_b];
     verify_factor := λ _ fid otp, (fid =? 9) && String.eqb otp "123456";
     activate_factor := λ _ _ _, Some {| activation_id := 1000 |};
     verify_factor_poll := λ _ _ k,
       {| status := if (k <? 3)%nat then "pending" else "accepted" |};
     poll_latency := λ _, 1;
     error_description := "service unavailable" |}.

(** The same provider, whose user never answers the push. *)
Definition silent_client : OneLoginClient :=
  {| get_users := get_users client;
     get_enrolled_factors_of := get_enrolled_factors_of client;
     verify_factor := verify_factor client;
     activate_factor := activate_factor client;
     verify_factor_poll := λ _ _ _, {| status := "pending" |};
     poll_latency := poll_latency client;
     error_description := error_description client |}.

Definition authenticator : Authenticator.t :=
  {| Authenticator._user_attribute := "username";
     Authenticator._client := client |}.

Definition silent_authenticator : Authenticator.t :=
  {| Authenticator._user_attribute := "username";
     Authenticator._client := silent_client |}.

Definition world0 : World := {| clock := 1000; npolls := 0; calls := [] |}.

(** A first turn of "alice" over ssh, with the credential [password]. *)
Definition turn (username : string) (password : option string) : Plugin.t :=
  {| Plugin._authenticator := authenticator;
     Plugin._factor_selection_enabled := true;
     Plugin._enable_stacktrace := false;
     Plugin.connection := {| protocol := "ssh"; key_value_pairs := ∅ |};
     Plugin.mfa_identity := username;
     Plugin.mfa_password := password;
     Plugin.mfa_question := "One-time password: ";
     Plugin.mfa_question_key := "otp";
     Plugin._factor_selection_in_progress := false;
     Plugin._enrolled_factors := [];
     Plugin._user_selected_factor_id := None;
     Plugin.logged_errors := [];
     Plugin.world := world0 |}.

(** A turn without credential, for a user who never answers the push. *)
Definition unanswered_push : Plugin.t :=
  {| Plugin._authenticator := silent_authenticator;
     Plugin._factor_selection_enabled := true;
     Plugin._enable_stacktrace := false;
     Plugin.connection := {| protocol := "ssh"; key_value_pairs := ∅ |};
     Plugin.mfa_identity := "alice";
     Plugin.mfa_password := None;
     Plugin.mfa_question := "One-time password: ";
     Plugin.mfa_question_key := "otp";
     Plugin._factor_selection_in_progress := false;
     Plugin._enrolled_factors := [];
     Plugin._user_selected_factor_id := None;
     Plugin.logged_errors := [];
     Plugin.world := world0 |}.

Definition answer_and_otp (answer : string) : gmap string string :=
  {[ "user_factor_selection" := answer; "otp" := "!select" ]}.

(** The turn that answers the selection prompt with [answers] buffered. *)
Definition answering (answers : gmap string string) : Plugin.t :=
  Plugin.set_factor_selection_in_progress true
    (Plugin.set_enrolled_factors [(7, "Device A"); (9, "Device B")]
       (Plugin.set_connection {| protocol := "ssh"; key_value_pairs := answers |}
          (turn "alice" (Some "!select")))).

(** The same provider, which grants no activation. *)
Definition refusing_client : OneLoginClient :=
  {| get_users := get_users client;
     get_enrolled_factors_of := get_enrolled_factors_of client;
     verify_factor := verify_factor client;
     activate_factor := λ _ _ _, None;
     verify_factor_poll := verify_factor_poll client;
     poll_latency := poll_latency client;
     error_description := error_description client |}.

Definition refusing_authenticator : Authenticator.t :=
  {| Authenticator._user_attribute := "username";
     Authenticator._client := refusing_client |}.

(** The first turn of a dialogue: "!select" typed as one-time code. *)
Definition select_typed : Plugin.t :=
  Plugin.set_connection
    {| protocol := "ssh"; key_value_pairs := {[ "otp" := "!select" ]} |}
    (turn "alice" (Some "!select")).

(** A turn with the code 123456 after device A was selected. *)
Definition code_for_device_a : Plugin.t :=
  Plugin.set_user_selected_factor_id (Some 7) (turn "alice" (Some "123456")).

End Sample.

(** * Properties *)

(** ** Sequencing *)

Lemma bind_ok {S A B} (m : M S A) (k : A → M S B) s a s' :
  m s = (Ok a, s') → bind m k s = k a s'.
Proof. intros H. unfold bind. by rewrite H. Qed.

(** ** The authenticator *)

Section AuthenticatorFacts.
Import Authenticator.
Variable self : Authenticator.t.

Lemma _get_user_single username w u :
  get_users (_client self) (_user_attribute self) username = Some [u] →
  _get_user self username w
  = (Ok u, record_call (CGetUsers (_user_attribute self) username) w).
Proof.
  intros H. unfold _get_user, client_get_users, bind, modify, ret. simpl.
  by rewrite H.
Qed.

(** C4: resolving a user name.  No answer from the provider raises
    [APIResponseError] with the client's error description; an empty
    answer raises [UserNotFound]; more than one match raises the
    [APIResponseError] that reports the ambiguity (the code has no class of
    its own for it); exactly one match is returned. *)
Theorem get_user_resolution username w :
  let answer := get_users (_client self) (_user_attribute self) username in
  (answer = None →
     (_get_user self username w).1
     = Raise (APIResponseError (error_description (_client self)))) ∧
  (answer = Some [] →
     (_get_user self username w).1
     = Raise (UserNotFound
                ("No user found for user: " +:+ username +:+
                 " based on attribute: " +:+ _user_attribute self))) ∧
  (∀ users, answer = Some users → (1 < length users)%nat →
     (_get_user self username w).1
     = Raise (APIResponseError
                ("More than one user found for user: " +:+ username +:+
                 " based on attribute: " +:+ _user_attribute self))) ∧
  (∀ user, answer = Some [user] →
     (_get_user self username w).1 = Ok user).
Proof.
  cbv zeta. unfold _get_user, client_get_users, bind, modify, ret, raise.
  simpl. repeat split.
  - by intros ->.
  - by intros ->.
  - intros users -> Hlen. case_decide; [done | lia].
  - by intros user ->.
Qed.

(** [next_default] finds the first factor marked default. *)
Lemma next_default_first before d after :
  Forall (λ f, default f = false) before → default d = true →
  next_default (before ++ d :: after) = Some d.
Proof.
  intros Hbefore Hd. induction Hbefore as [|f before Hf _ IH]; simpl.
  - by rewrite Hd.
  - by rewrite Hf.
Qed.

Lemma next_default_none factors :
  Forall (λ f, default f = false) factors → next_default factors = None.
Proof.
  induction 1 as [|f factors Hf _ IH]; simpl; [done|]. by rewrite Hf.
Qed.

(** C6: the default factor is the first enrolled factor whose [default]
    flag is set; when no enrolled factor has the flag, and so also when
    none is enrolled, [FactorNotFound] is raised. *)
Theorem get_default_factor_first username w factors w' :
  get_enrolled_factors self username w = (Ok factors, w') →
  (∀ (before : list OTP_Device) d after,
     factors = (before ++ d :: after)%list →
     Forall (λ f, default f = false) before → default d = true →
     _get_default_factor self username w = (Ok d, w')) ∧
  (Forall (λ f, default f = false) factors →
     _get_default_factor self username w
     = (Raise (FactorNotFound "No default MFA factor found"), w')) ∧
  (factors = [] →
     _get_default_factor self username w
     = (Raise (FactorNotFound "No default MFA factor found"), w')).
Proof.
  intros Hlist. unfold _get_default_factor.
  rewrite (bind_ok _ _ _ _ _ Hlist). repeat split.
  - intros before d after -> Hbefore Hd.
    by rewrite next_default_first.
  - intros Hnone. by rewrite next_default_none.
  - by intros ->.
Qed.

End AuthenticatorFacts.

(** ** Which factor a verification uses *)

Section FactorChoice.
Import Authenticator.
Variable self : Authenticator.t.
Variables (username : string) (user : User).
Hypothesis one_user :
  get_users (_client self) (_user_attribute self) username = Some [user].

Lemma get_enrolled_factors_ok w factors :
  get_enrolled_factors_of (_client self) (user_id user) = Some factors →
  get_enrolled_factors self username w
  = (Ok factors,
     record_call (CGetEnrolledFactors (user_id user))
       (record_call (CGetUsers (_user_attribute self) username) w)).
Proof.
  intros Hfactors. unfold get_enrolled_factors.
  rewrite (bind_ok _ _ _ _ _ (_get_user_single self username w user one_user)).
  unfold client_get_enrolled_factors, bind, modify, ret. simpl.
  by rewrite Hfactors.
Qed.

Lemma _get_default_factor_ok w factors d :
  get_enrolled_factors_of (_client self) (user_id user) = Some factors →
  next_default factors = Some d →
  _get_default_factor self username w
  = (Ok d,
     record_call (CGetEnrolledFactors (user_id user))
       (record_call (CGetUsers (_user_attribute self) username) w)).
Proof.
  intros Hfactors Hd. unfold _get_default_factor.
  rewrite (bind_ok _ _ _ _ _ (get_enrolled_factors_ok w factors Hfactors)).
  by rewrite Hd.
Qed.

Lemma factor_id_or_default_given f w :
  f ≠ 0 → factor_id_or_default self (Some f) username w = (Ok f, w).
Proof. intros Hf. unfold factor_id_or_default. by case_decide. Qed.

Lemma factor_id_or_default_zero w :
  factor_id_or_default self (Some 0) username w
  = factor_id_or_default self None username w.
Proof. reflexivity. Qed.

Lemma factor_id_or_default_absent w factors d :
  get_enrolled_factors_of (_client self) (user_id user) = Some factors →
  next_default factors = Some d →
  factor_id_or_default self None username w
  = (Ok (device_id d),
     record_call (CGetEnrolledFactors (user_id user))
       (record_call (CGetUsers (_user_attribute self) username) w)).
Proof.
  intros Hfactors Hd. unfold factor_id_or_default.
  by rewrite (bind_ok _ _ _ _ _ (_get_default_factor_ok w factors d Hfactors Hd)).
Qed.

Lemma otp_authenticate_with fid w1 otp factor_id w :
  factor_id_or_default self factor_id username
    (record_call (CGetUsers (_user_attribute self) username) w) = (Ok fid, w1) →
  otp_authenticate self username otp factor_id w
  = (Ok (verify_factor (_client self) (user_id user) fid otp),
     record_call (CVerifyFactor (user_id user) fid otp) w1).
Proof.
  intros Hfid. unfold otp_authenticate.
  rewrite (bind_ok _ _ _ _ _ (_get_user_single self username w user one_user)).
  by rewrite (bind_ok _ _ _ _ _ Hfid).
Qed.

(** C7, as the code has it: the one-time code is submitted once, for the
    resolved user, and the provider's answer is returned as it is: the
    journal gains a single [verify_factor], whatever its answer.  A given
    factor id other than 0 is the factor verified; with no factor id, and
    also with the factor id 0, it is the user's default factor. *)
Theorem otp_authenticate_exact otp factor_id w :
  let r := otp_authenticate self username otp factor_id w in
  let looked_up := CGetUsers (_user_attribute self) username in
  (∀ f, factor_id = Some f → f ≠ 0 →
     r.1 = Ok (verify_factor (_client self) (user_id user) f otp) ∧
     calls r.2
     = (calls w ++ [looked_up; CVerifyFactor (user_id user) f otp])%list) ∧
  (∀ factors d,
     factor_id = None ∨ factor_id = Some 0 →
     get_enrolled_factors_of (_client self) (user_id user) = Some factors →
     next_default factors = Some d →
     r.1 = Ok (verify_factor (_client self) (user_id user) (device_id d) otp) ∧
     calls r.2
     = (calls w ++ [looked_up; looked_up; CGetEnrolledFactors (user_id user);
                    CVerifyFactor (user_id user) (device_id d) otp])%list).
Proof.
  cbv zeta. split.
  - intros f -> Hf.
    rewrite (otp_authenticate_with f _ otp (Some f) w
               (factor_id_or_default_given f _ Hf)).
    simpl. by rewrite <- app_assoc.
  - intros factors d Hfalsy Hfactors Hd.
    pose proof (factor_id_or_default_absent
                  (record_call (CGetUsers (_user_attribute self) username) w)
                  factors d Hfactors Hd) as Hfid.
    destruct Hfalsy as [-> | ->].
    + rewrite (otp_authenticate_with (device_id d) _ otp None w Hfid).
      simpl. by rewrite <- !app_assoc.
    + rewrite <- factor_id_or_default_zero in Hfid.
      rewrite (otp_authenticate_with (device_id d) _ otp (Some 0) w Hfid).
      simpl. by rewrite <- !app_assoc.
Qed.

End FactorChoice.

(** ** The polling loop of the push verification *)

Section PushPolling.
Import Authenticator.
Variable self : Authenticator.t.
Variables uid aid expires_at : Z.

Lemma poll_loop_unfold w :
  poll_loop self uid aid expires_at w =
  if decide (clock w < expires_at) then
    let s := poll_status self uid aid (npolls w) in
    if String.eqb s "pending" then
      poll_loop self uid aid expires_at
        (advance PUSH_VERIFICATION_POLL_FREQUENCY (after_poll self uid aid w))
    else if String.eqb s "accepted" then (Ok true, after_poll self uid aid w)
    else if String.eqb s "rejected" then (Ok false, after_poll self uid aid w)
    else (Raise (APIResponseError
                   ("Push verification status not recognized: " +:+ s)),
          after_poll self uid aid w)
  else (Raise (TimeOutError "Push verification timed out"), w).
Proof.
  etrans; [apply poll_loop_equation_1|].
  destruct (decide (clock w < expires_at)); reflexivity.
Qed.

Lemma poll_started_nonneg latency k first : 0 ≤ poll_started latency first k.
Proof.
  revert first. induction k as [|k IH]; intros first; simpl; [lia|].
  specialize (IH (S first)). unfold PUSH_VERIFICATION_POLL_FREQUENCY. lia.
Qed.

Lemma after_rounds_O w : after_rounds self uid aid 0 w = w.
Proof.
  destruct w as [c n l]. unfold after_rounds. simpl.
  f_equal; [lia | lia | apply app_nil_r].
Qed.

Lemma after_rounds_S n w :
  after_rounds self uid aid (S n) w
  = after_rounds self uid aid n
      (advance PUSH_VERIFICATION_POLL_FREQUENCY (after_poll self uid aid w)).
Proof.
  destruct w as [c p l]. unfold after_rounds, after_poll. simpl.
  f_equal; [lia | lia | by rewrite <- app_assoc].
Qed.

(** Pending rounds are skipped one after the other, as long as the
    deadline is ahead. *)
Lemma poll_loop_pending_rounds n : ∀ w,
  (∀ k, (k < n)%nat → poll_status self uid aid (npolls w + k) = "pending") →
  clock w + poll_started (poll_latency (_client self)) (npolls w) n < expires_at →
  poll_loop self uid aid expires_at w
  = poll_loop self uid aid expires_at (after_rounds self uid aid n w).
Proof.
  induction n as [|n IH]; intros w Hpending Hdeadline.
  - by rewrite after_rounds_O.
  - rewrite poll_loop_unfold, after_rounds_S.
    pose proof (poll_started_nonneg (poll_latency (_client self)) n
                  (S (npolls w))) as Hnonneg.
    simpl in Hdeadline. unfold PUSH_VERIFICATION_POLL_FREQUENCY in *.
    case_decide; [|lia].
    pose proof (Hpending O ltac:(lia)) as H0.
    rewrite Nat.add_0_r in H0. cbv zeta. rewrite H0. simpl.
    apply IH.
    + intros k Hk. simpl.
      replace (S (npolls w + k)) with (npolls w + S k)%nat by lia.
      apply Hpending. lia.
    + simpl. lia.
Qed.

Lemma poll_loop_decided n w :
  (∀ k, (k < n)%nat → poll_status self uid aid (npolls w + k) = "pending") →
  clock w + poll_started (poll_latency (_client self)) (npolls w) n < expires_at →
  poll_status self uid aid (npolls w + n) ≠ "pending" →
  poll_loop self uid aid expires_at w
  = (verdict (poll_status self uid aid (npolls w + n)),
     after_poll self uid aid (after_rounds self uid aid n w)).
Proof.
  intros Hpending Hdeadline Hn.
  rewrite (poll_loop_pending_rounds n w Hpending Hdeadline), poll_loop_unfold.
  change (clock (after_rounds self uid aid n w))
    with (clock w + poll_started (poll_latency (_client self)) (npolls w) n).
  change (npolls (after_rounds self uid aid n w)) with (npolls w + n)%nat.
  case_decide; [|lia]. cbv zeta.
  apply String.eqb_neq in Hn. rewrite Hn. unfold verdict.
  by repeat case_match.
Qed.

(** When every poll that starts before the deadline is pending, the loop
    ends by the timeout, at the first check at or after the deadline. *)
Lemma poll_loop_timeout : ∀ w,
  (∀ k, clock w + poll_started (poll_latency (_client self)) (npolls w) k
        < expires_at →
        poll_status self uid aid (npolls w + k) = "pending") →
  ∃ n, poll_loop self uid aid expires_at w
       = (Raise (TimeOutError "Push verification timed out"),
          after_rounds self uid aid n w)
       ∧ expires_at
         ≤ clock w + poll_started (poll_latency (_client self)) (npolls w) n.
Proof.
  intros w. remember (Z.to_nat (expires_at - clock w)) as left_ eqn:Hleft.
  revert w Hleft. induction left_ as [left_ IH] using lt_wf_ind.
  intros w Hleft Hpending. rewrite poll_loop_unfold.
  case_decide as Hnow.
  - pose proof (Hpending O) as H0. simpl in H0.
    rewrite Z.add_0_r, Nat.add_0_r in H0. specialize (H0 Hnow).
    cbv zeta. rewrite H0. simpl.
    set (w' := advance PUSH_VERIFICATION_POLL_FREQUENCY
                 (after_poll self uid aid w)).
    destruct (IH (Z.to_nat (expires_at - clock w'))) with (w := w')
      as (n & Hrun & Hlate).
    + subst left_ w'. unfold PUSH_VERIFICATION_POLL_FREQUENCY. simpl. lia.
    + reflexivity.
    + intros k Hk. subst w'. simpl in *.
      replace (S (npolls w + k)) with (npolls w + S k)%nat by lia.
      apply Hpending. simpl. lia.
    + exists (S n). rewrite after_rounds_S. split; [exact Hrun|].
      subst w'. simpl in *. lia.
  - exists O. rewrite after_rounds_O. split; [reflexivity|]. simpl. lia.
Qed.

(** The loop only ever adds polls to the journal. *)
Lemma poll_loop_journal : ∀ w,
  ∃ m, calls (poll_loop self uid aid expires_at w).2
       = (calls w ++ replicate m (CVerifyFactorPoll uid aid))%list.
Proof.
  intros w. remember (Z.to_nat (expires_at - clock w)) as left_ eqn:Hleft.
  revert w Hleft. induction left_ as [left_ IH] using lt_wf_ind.
  intros w Hleft. rewrite poll_loop_unfold.
  case_decide as Hnow; [|exists O; simpl; by rewrite app_nil_r].
  cbv zeta. repeat case_match; try (exists 1%nat; reflexivity).
  set (w' := advance PUSH_VERIFICATION_POLL_FREQUENCY
               (after_poll self uid aid w)).
  destruct (IH (Z.to_nat (expires_at - clock w'))) with (w := w') as [m Hm].
  - subst left_ w'. unfold PUSH_VERIFICATION_POLL_FREQUENCY. simpl. lia.
  - reflexivity.
  - exists (S m). rewrite Hm. subst w'. simpl. by rewrite <- app_assoc.
Qed.

End PushPolling.

(** ** The push verification *)

Section PushVerification.
Import Authenticator.
Variable self : Authenticator.t.

Lemma push_authenticate_started username factor_id w user w1 fid w2 activation :
  _get_user self username w = (Ok user, w1) →
  factor_id_or_default self factor_id username w1 = (Ok fid, w2) →
  activate_factor (_client self) (user_id user) fid
    (Some PUSH_VERIFICATION_POLL_TIMEOUT) = Some activation →
  let started :=
    record_call (CActivateFactor (user_id user) fid
                   (Some PUSH_VERIFICATION_POLL_TIMEOUT)) w2 in
  push_authenticate self username factor_id w
  = poll_loop self (user_id user) (activation_id activation)
      (clock started + PUSH_VERIFICATION_POLL_TIMEOUT) started.
Proof.
  intros Huser Hfid Hact. cbv zeta. unfold push_authenticate.
  rewrite (bind_ok _ _ _ _ _ Huser), (bind_ok _ _ _ _ _ Hfid).
  unfold _activate_factor, client_activate_factor, bind, modify, ret, now.
  simpl. by rewrite Hact.
Qed.

(** C2: once the user and the factor are resolved, the push verification
    asks the provider for an activation that expires after the poll
    timeout, and then polls.  Let the polls before number [n] be pending
    and the [n]-th poll start before the deadline: [accepted] returns
    true, [rejected] returns false, any other status raises
    [APIResponseError]; the journal then holds the activation followed by
    [n + 1] polls, a single one when the first answer is [rejected].  If
    every poll that starts before the deadline is pending, [TimeOutError]
    is raised at the first check at or after the deadline. *)
Theorem push_authenticate_polling username factor_id w user w1 fid w2 activation :
  _get_user self username w = (Ok user, w1) →
  factor_id_or_default self factor_id username w1 = (Ok fid, w2) →
  activate_factor (_client self) (user_id user) fid
    (Some PUSH_VERIFICATION_POLL_TIMEOUT) = Some activation →
  let uid := user_id user in
  let aid := activation_id activation in
  let started :=
    record_call (CActivateFactor uid fid (Some PUSH_VERIFICATION_POLL_TIMEOUT)) w2 in
  let reported k := poll_status self uid aid (npolls started + k) in
  let elapsed k :=
    poll_started (poll_latency (_client self)) (npolls started) k in
  let r := push_authenticate self username factor_id w in
  (∀ n, (∀ k, (k < n)%nat → reported k = "pending") →
        elapsed n < PUSH_VERIFICATION_POLL_TIMEOUT →
     let final := after_poll self uid aid (after_rounds self uid aid n started) in
     (reported n = "accepted" → r = (Ok true, final)) ∧
     (reported n = "rejected" → r = (Ok false, final)) ∧
     (reported n ≠ "pending" → reported n ≠ "accepted" →
      reported n ≠ "rejected" →
      r = (Raise (APIResponseError
                    ("Push verification status not recognized: " +:+ reported n)),
           final)) ∧
     calls final
     = (calls w2 ++ CActivateFactor uid fid (Some PUSH_VERIFICATION_POLL_TIMEOUT)
                    :: replicate (S n) (CVerifyFactorPoll uid aid))%list) ∧
  ((∀ k, elapsed k < PUSH_VERIFICATION_POLL_TIMEOUT → reported k = "pending") →
     ∃ n, r = (Raise (TimeOutError "Push verification timed out"),
               after_rounds self uid aid n started)
          ∧ PUSH_VERIFICATION_POLL_TIMEOUT ≤ elapsed n).
Proof.
  intros Huser Hfid Hact. cbv zeta.
  rewrite (push_authenticate_started _ _ _ _ _ _ _ _ Huser Hfid Hact).
  cbv zeta.
  set (uid := user_id user). set (aid := activation_id activation).
  set (started := record_call _ w2). split.
  - intros n Hpending Hdeadline.
    assert (Hdecided : poll_status self uid aid (npolls started + n) ≠ "pending" →
              poll_loop self uid aid
                (clock started + PUSH_VERIFICATION_POLL_TIMEOUT) started
              = (verdict (poll_status self uid aid (npolls started + n)),
                 after_poll self uid aid (after_rounds self uid aid n started))).
    { intros Hn. apply poll_loop_decided; [done | lia | done]. }
    repeat split.
    + intros Hn. rewrite Hdecided; by rewrite Hn.
    + intros Hn. rewrite Hdecided; by rewrite Hn.
    + intros Hp Ha Hr. rewrite (Hdecided Hp). unfold verdict.
      apply String.eqb_neq in Ha, Hr. by rewrite Ha, Hr.
    + simpl. rewrite <- !app_assoc. simpl. do 2 f_equal.
      clear. induction n as [|n IH]; simpl; [done|]. by rewrite IH.
  - intros Hpending.
    destruct (poll_loop_timeout self uid aid
                (clock started + PUSH_VERIFICATION_POLL_TIMEOUT) started)
      as (n & Hrun & Hlate).
    + intros k Hk. apply Hpending. lia.
    + exists n. split; [exact Hrun | lia].
Qed.

End PushVerification.

(** ** A factor id of zero *)

Section ZeroFactorId.
Import Authenticator.
Variable self : Authenticator.t.
Variables (username : string) (user : User).
Hypothesis one_user :
  get_users (_client self) (_user_attribute self) username = Some [user].

Lemma push_authenticate_activates fid w1 factor_id w :
  factor_id_or_default self factor_id username
    (record_call (CGetUsers (_user_attribute self) username) w) = (Ok fid, w1) →
  CActivateFactor (user_id user) fid (Some PUSH_VERIFICATION_POLL_TIMEOUT)
  ∈ calls (push_authenticate self username factor_id w).2.
Proof.
  intros Hfid.
  pose proof (_get_user_single self username w user one_user) as Huser.
  destruct (activate_factor (_client self) (user_id user) fid
              (Some PUSH_VERIFICATION_POLL_TIMEOUT)) as [activation|] eqn:Hact.
  - rewrite (push_authenticate_started self _ _ _ _ _ _ _ _ Huser Hfid Hact).
    cbv zeta.
    destruct (poll_loop_journal self (user_id user) (activation_id activation)
                (clock (record_call (CActivateFactor (user_id user) fid
                          (Some PUSH_VERIFICATION_POLL_TIMEOUT)) w1)
                 + PUSH_VERIFICATION_POLL_TIMEOUT)
                (record_call (CActivateFactor (user_id user) fid
                          (Some PUSH_VERIFICATION_POLL_TIMEOUT)) w1))
      as [m ->].
    simpl. set_solver.
  - unfold push_authenticate.
    rewrite (bind_ok _ _ _ _ _ Huser), (bind_ok _ _ _ _ _ Hfid).
    unfold _activate_factor, client_activate_factor, bind, modify, ret, raise.
    simpl. rewrite Hact. simpl. set_solver.
Qed.

(** C9: a factor id of [0] is falsy, so [factor_id or default] falls back
    to the user's default factor exactly as for an absent factor id, in
    the OTP and in the push verification alike: the code is checked, and
    the push activated, for the default factor and not for factor [0]. *)
Theorem zero_factor_id_is_absent otp w :
  otp_authenticate self username otp (Some 0) w
  = otp_authenticate self username otp None w ∧
  push_authenticate self username (Some 0) w
  = push_authenticate self username None w ∧
  (∀ factors d,
     get_enrolled_factors_of (_client self) (user_id user) = Some factors →
     next_default factors = Some d →
     (otp_authenticate self username otp (Some 0) w).1
     = Ok (verify_factor (_client self) (user_id user) (device_id d) otp) ∧
     CVerifyFactor (user_id user) (device_id d) otp
     ∈ calls (otp_authenticate self username otp (Some 0) w).2 ∧
     CActivateFactor (user_id user) (device_id d)
       (Some PUSH_VERIFICATION_POLL_TIMEOUT)
     ∈ calls (push_authenticate self username (Some 0) w).2).
Proof.
  split; [reflexivity|]. split; [reflexivity|].
  intros factors d Hfactors Hd.
  pose proof (factor_id_or_default_absent self username user one_user
                (record_call (CGetUsers (_user_attribute self) username) w)
                factors d Hfactors Hd) as Hfid.
  rewrite <- factor_id_or_default_zero in Hfid.
  rewrite (otp_authenticate_with self username user one_user
             (device_id d) _ otp (Some 0) w Hfid).
  split; [reflexivity|]. split.
  - simpl. set_solver.
  - exact (push_authenticate_activates _ _ _ _ Hfid).
Qed.

End ZeroFactorId.

(** ** The selection prompt *)

Lemma append_cons x (a b : string) : String x a +:+ b = String x (a +:+ b).
Proof. reflexivity. Qed.

Lemma append_assoc (a b c : string) : (a +:+ b) +:+ c = a +:+ (b +:+ c).
Proof. induction a as [|x a IH]; [done|]. by rewrite !append_cons, IH. Qed.

Lemma append_empty_r (a : string) : a +:+ "" = a.
Proof. induction a as [|x a IH]; [done|]. by rewrite append_cons, IH. Qed.

Lemma prompt_loop_lines factors : ∀ position prompt,
  Plugin.prompt_loop position factors prompt
  = prompt +:+ foldr String.append ""
                 (imap (λ i factor, prompt_line (position + i) factor.2) factors).
Proof.
  induction factors as [|factor rest IH]; intros position prompt.
  - simpl. by rewrite append_empty_r.
  - simpl. rewrite IH, Nat.add_0_r.
    change (pretty position +:+ ") " +:+ factor.2 +:+ newline)
      with (prompt_line position factor.2).
    rewrite !append_assoc. do 2 f_equal. f_equal.
    apply imap_ext. intros i x _. simpl. by rewrite Nat.add_succ_r.
Qed.

Section SelectionCommand.
Import Plugin.
Variable self : Plugin.t.

Lemma _init_factor_selection_some f factors w :
  Authenticator.get_enrolled_factors (_authenticator self) (mfa_identity self)
    (world self) = (Ok (f :: factors), w) →
  _init_factor_selection self
  = (Ok (need_info (enumerated_prompt (cookie_entry <$> f :: factors))
           "user_factor_selection"),
     set_factor_selection_in_progress true
       (set_enrolled_factors (cookie_entry <$> f :: factors)
          (set_world w self))).
Proof.
  intros Hlist. unfold _init_factor_selection, call, bind, get, modify, ret.
  simpl. rewrite Hlist. simpl. do 3 f_equal.
  unfold _factor_selection_prompt, enumerated_prompt. simpl.
  by rewrite prompt_loop_lines.
Qed.

Lemma _init_factor_selection_none w :
  Authenticator.get_enrolled_factors (_authenticator self) (mfa_identity self)
    (world self) = (Ok [], w) →
  _init_factor_selection self = (Ok (deny "No factors found"), set_world w self).
Proof.
  intros Hlist. unfold _init_factor_selection, call, bind, get, modify, ret.
  simpl. by rewrite Hlist.
Qed.

(** C5: when the user has enrolled factors, the selection starts with a
    need-more-input decision whose prompt has one line
    "<position>) <displayName>" per factor, numbered from one in the order
    of the list, and then the line "Select a factor: "; for the factors
    (7, Device A) and (9, Device B) it is the three-line string of the
    specification. *)
Theorem factor_selection_prompt_enumerates f factors w :
  Authenticator.get_enrolled_factors (_authenticator self) (mfa_identity self)
    (world self) = (Ok (f :: factors), w) →
  (_init_factor_selection self).1
  = Ok (need_info (enumerated_prompt (cookie_entry <$> f :: factors))
          "user_factor_selection") ∧
  _enrolled_factors (_init_factor_selection self).2
  = cookie_entry <$> f :: factors ∧
  _factor_selection_prompt
    (set_enrolled_factors [(7, "Device A"); (9, "Device B")] self)
  = "1) Device A" +:+ newline +:+ "2) Device B" +:+ newline +:+ "Select a factor: ".
Proof.
  intros Hlist. rewrite (_init_factor_selection_some f factors w Hlist).
  repeat split.
Qed.

Hypothesis not_in_progress : _factor_selection_in_progress self = false.
Hypothesis select_command : mfa_password self = Some "!select".

Lemma do_authenticate_select :
  do_authenticate self = try_except _run_factor_selection_command
    (λ e, Some (logger_error e;;; ret (deny "An error occured"))) self.
Proof.
  unfold do_authenticate, do_authenticate_try, try_except, bind, get.
  by rewrite not_in_progress, select_command.
Qed.

(** C8: the command "!select", outside a selection.  It is denied with
    "Factor selection not available" when the selection is disabled, else
    with "Factor selection not supported" when the protocol is not one of
    the supported ones, else with "No factors found" when the user has no
    enrolled factor; otherwise the factors are stored, the selection is in
    progress and the decision asks for more input. *)
Theorem select_command_turn :
  (_factor_selection_enabled self = false →
     do_authenticate self = (Ok (deny "Factor selection not available"), self)) ∧
  (_factor_selection_enabled self = true →
   protocol (connection self) ∉ FACTOR_SELECTION_SUPPORTED_PROTOCOLS →
     do_authenticate self = (Ok (deny "Factor selection not supported"), self)) ∧
  (∀ w,
   _factor_selection_enabled self = true →
   protocol (connection self) ∈ FACTOR_SELECTION_SUPPORTED_PROTOCOLS →
   Authenticator.get_enrolled_factors (_authenticator self) (mfa_identity self)
     (world self) = (Ok [], w) →
     do_authenticate self = (Ok (deny "No factors found"), set_world w self)) ∧
  (∀ f factors w,
   _factor_selection_enabled self = true →
   protocol (connection self) ∈ FACTOR_SELECTION_SUPPORTED_PROTOCOLS →
   Authenticator.get_enrolled_factors (_authenticator self) (mfa_identity self)
     (world self) = (Ok (f :: factors), w) →
     do_authenticate self
     = (Ok (need_info (enumerated_prompt (cookie_entry <$> f :: factors))
              "user_factor_selection"),
        set_factor_selection_in_progress true
          (set_enrolled_factors (cookie_entry <$> f :: factors)
             (set_world w self)))).
Proof.
  rewrite do_authenticate_select.
  unfold try_except, _run_factor_selection_command, bind, get, ret.
  unfold _factor_selection_supported. repeat split.
  - by intros ->.
  - intros -> Hproto. simpl. by rewrite bool_decide_eq_false_2.
  - intros w -> Hproto Hlist. simpl. rewrite bool_decide_eq_true_2 by done.
    simpl. by rewrite (_init_factor_selection_none w Hlist).
  - intros f factors w -> Hproto Hlist. simpl.
    rewrite bool_decide_eq_true_2 by done. simpl.
    by rewrite (_init_factor_selection_some f factors w Hlist).
Qed.

End SelectionCommand.

(** ** The answer to the selection prompt *)

Section SelectionAnswer.
Import Plugin.
Variable self : Plugin.t.
Hypothesis in_progress : _factor_selection_in_progress self = true.

Lemma do_authenticate_answer :
  do_authenticate self = try_except _finish_factor_selection
    (λ e, Some (logger_error e;;; ret (deny "An error occured"))) self.
Proof.
  unfold do_authenticate, do_authenticate_try, try_except, bind, get.
  by rewrite in_progress.
Qed.

(** The [try] block of [_finish_factor_selection] stores a factor exactly
    when the answer reads as a position of the list. *)
Lemma _finish_factor_selection_valid s n factor :
  key_value_pairs (connection self) !! "user_factor_selection" = Some s →
  int_of_string s = Some n → 1 ≤ n →
  _enrolled_factors self !! Z.to_nat (n - 1) = Some factor →
  _finish_factor_selection self
  = (let! _ := key_value_pairs_pop "otp" in _ask_mfa_password)
      (set_user_selected_factor_id (Some factor.1)
         (set_factor_selection_in_progress false self)).
Proof.
  intros Hs Hn Hpos Hfactor.
  unfold _finish_factor_selection, try_except, bind, get, modify, ret.
  simpl. rewrite Hs. simpl. rewrite Hn. simpl.
  case_decide; [lia|]. unfold list_getitem. by rewrite Hfactor.
Qed.

Lemma _finish_factor_selection_invalid :
  let selection :=
    key_value_pairs (connection self) !! "user_factor_selection" in
  selection = None
  ∨ (∃ s, selection = Some s ∧ int_of_string s = None)
  ∨ (∃ s n, selection = Some s ∧ int_of_string s = Some n
            ∧ (n < 1 ∨ Z.of_nat (length (_enrolled_factors self)) < n)) →
  _finish_factor_selection self
  = (Ok (deny "Invalid selection"), set_factor_selection_in_progress false self).
Proof.
  cbv zeta. intros Hbad.
  unfold _finish_factor_selection, try_except, bind, get, modify, ret.
  simpl. destruct Hbad as [-> | [(s & -> & Hs) | (s & n & -> & Hn & Hrange)]].
  - reflexivity.
  - simpl. by rewrite Hs.
  - simpl. rewrite Hn. simpl. case_decide; [done|].
    destruct Hrange as [? | Hlong]; [lia|]. unfold list_getitem.
    rewrite (lookup_ge_None_2 (_enrolled_factors self) (Z.to_nat (n - 1)))
      by lia.
    reflexivity.
Qed.


End SelectionAnswer.

(** ** The top-level handler *)

(** C1, on the code: an exception that leaves the [try] body of
    [do_authenticate] is logged and the turn is denied with a fixed reason,
    which does not depend on the exception.  The reason the code gives is
    "An error occured", with a single r; it is not the "An error occurred"
    of the specification. *)
Theorem do_authenticate_generic_deny (self : Plugin.t) e s :
  Plugin.do_authenticate_try self = (Raise e, s) →
  Plugin.do_authenticate self
  = (Ok (deny "An error occured"),
     Plugin.set_logged_errors (Plugin.logged_errors s ++ [e]) s) ∧
  (Plugin.do_authenticate self).1 ≠ Ok (deny "An error occurred").
Proof.
  intros Hraise. unfold Plugin.do_authenticate, try_except. rewrite Hraise.
  split; [reflexivity|]. simpl. discriminate.
Qed.

(** * The statements at the sample provider *)

Lemma get_user_resolution_witness :
  (Authenticator._get_user Sample.authenticator "down" Sample.world0).1
  = Raise (APIResponseError "service unavailable") ∧
  (Authenticator._get_user Sample.authenticator "bob" Sample.world0).1
  = Raise (UserNotFound "No user found for user: bob based on attribute: username") ∧
  (Authenticator._get_user Sample.authenticator "twins" Sample.world0).1
  = Raise (APIResponseError
             "More than one user found for user: twins based on attribute: username") ∧
  (Authenticator._get_user Sample.authenticator "alice" Sample.world0).1
  = Ok {| user_id := 42 |}.
Proof.
  split; [|split; [|split]].
  - apply (get_user_resolution Sample.authenticator "down" Sample.world0).
    reflexivity.
  - apply (get_user_resolution Sample.authenticator "bob" Sample.world0).
    reflexivity.
  - apply (proj1 (proj2 (proj2
             (get_user_resolution Sample.authenticator "twins" Sample.world0)))
             [ {| user_id := 1 |}; {| user_id := 2 |} ]).
    + reflexivity.
    + simpl. lia.
  - apply (get_user_resolution Sample.authenticator "alice" Sample.world0).
    reflexivity.
Defined.

Lemma get_default_factor_first_witness :
  (Authenticator._get_default_factor Sample.authenticator "alice" Sample.world0).1
  = Ok Sample.device_b.
Proof.
  destruct (get_default_factor_first Sample.authenticator "alice" Sample.world0
              [Sample.device_a; Sample.device_b] _ eq_refl) as [Hfirst _].
  rewrite (Hfirst [Sample.device_a] Sample.device_b []).
  - reflexivity.
  - reflexivity.
  - repeat constructor.
  - reflexivity.
Defined.

Lemma otp_authenticate_exact_witness :
  (Authenticator.otp_authenticate Sample.authenticator "alice" "123456" (Some 9)
     Sample.world0).1 = Ok true ∧
  (Authenticator.otp_authenticate Sample.authenticator "alice" "123456" (Some 7)
     Sample.world0).1 = Ok false ∧
  calls (Authenticator.otp_authenticate Sample.authenticator "alice" "123456"
           (Some 7) Sample.world0).2
  = [CGetUsers "username" "alice"; CVerifyFactor 42 7 "123456"] ∧
  (Authenticator.otp_authenticate Sample.authenticator "alice" "123456" None
     Sample.world0).1 = Ok true ∧
  calls (Authenticator.otp_authenticate Sample.authenticator "alice" "123456" None
           Sample.world0).2
  = [CGetUsers "username" "alice"; CGetUsers "username" "alice";
     CGetEnrolledFactors 42; CVerifyFactor 42 9 "123456"] ∧
  (Authenticator.otp_authenticate Sample.authenticator "alice" "123456" (Some 0)
     Sample.world0).1 = Ok true.
Proof.
  pose proof (otp_authenticate_exact Sample.authenticator "alice"
                {| user_id := 42 |} eq_refl "123456") as Hexact.
  split; [|split; [|split; [|split; [|split]]]].
  - destruct (Hexact (Some 9) Sample.world0) as (Hgiven & _).
    destruct (Hgiven 9 eq_refl ltac:(discriminate)) as [-> _]. reflexivity.
  - destruct (Hexact (Some 7) Sample.world0) as (Hgiven & _).
    destruct (Hgiven 7 eq_refl ltac:(discriminate)) as [-> _]. reflexivity.
  - destruct (Hexact (Some 7) Sample.world0) as (Hgiven & _).
    destruct (Hgiven 7 eq_refl ltac:(discriminate)) as [_ ->]. reflexivity.
  - destruct (Hexact None Sample.world0) as (_ & Hdefault).
    destruct (Hdefault [Sample.device_a; Sample.device_b] Sample.device_b
                ltac:(by left) eq_refl eq_refl) as [-> _].
    reflexivity.
  - destruct (Hexact None Sample.world0) as (_ & Hdefault).
    destruct (Hdefault [Sample.device_a; Sample.device_b] Sample.device_b
                ltac:(by left) eq_refl eq_refl) as [_ ->].
    reflexivity.
  - destruct (Hexact (Some 0) Sample.world0) as (_ & Hdefault).
    destruct (Hdefault [Sample.device_a; Sample.device_b] Sample.device_b
                ltac:(by right) eq_refl eq_refl) as [-> _].
    reflexivity.
Defined.

(** C7, as stated, fails at the factor id 0: the provider rejects the
    code 123456 for the factor 0 and verifies it for the default factor 9,
    and the verification returns true. *)
Lemma otp_as_specified_fails :
  ¬ otp_as_specified Sample.authenticator "alice" "123456" (Some 0)
      Sample.world0.
Proof.
  intros Hclaim.
  specialize (Hclaim {| user_id := 42 |} 0 eq_refl eq_refl).
  discriminate Hclaim.
Qed.

Lemma zero_factor_id_is_absent_witness :
  (Authenticator.otp_authenticate Sample.authenticator "alice" "123456" (Some 0)
     Sample.world0).1 = Ok true ∧
  CActivateFactor 42 9 (Some 60)
  ∈ calls (Authenticator.push_authenticate Sample.authenticator "alice" (Some 0)
             Sample.world0).2.
Proof.
  destruct (zero_factor_id_is_absent Sample.authenticator "alice"
              {| user_id := 42 |} eq_refl "123456" Sample.world0)
    as (_ & _ & Hdefault).
  destruct (Hdefault [Sample.device_a; Sample.device_b] Sample.device_b
              eq_refl eq_refl) as (Hotp & _ & Hpush).
  split; [exact Hotp | exact Hpush].
Defined.

Lemma push_authenticate_polling_witness :
  Authenticator.push_authenticate Sample.authenticator "alice" None Sample.world0
  = (Ok true,
     {| clock := 1019; npolls := 4;
        calls := [CGetUsers "username" "alice"; CGetUsers "username" "alice";
                  CGetEnrolledFactors 42; CActivateFactor 42 9 (Some 60);
                  CVerifyFactorPoll 42 1000; CVerifyFactorPoll 42 1000;
                  CVerifyFactorPoll 42 1000; CVerifyFactorPoll 42 1000] |}) ∧
  (Authenticator.push_authenticate Sample.silent_authenticator "alice" None
     Sample.world0).1
  = Raise (TimeOutError "Push verification timed out").
Proof.
  split.
  - destruct (push_authenticate_polling Sample.authenticator "alice" None
                Sample.world0 _ _ _ _ _ eq_refl eq_refl eq_refl) as [Hdecided _].
    destruct (Hdecided 3%nat) as (Haccepted & _).
    + intros [|[|[|k]]] Hk; [reflexivity..|lia].
    + reflexivity.
    + rewrite (Haccepted eq_refl). reflexivity.
  - destruct (push_authenticate_polling Sample.silent_authenticator "alice" None
                Sample.world0 _ _ _ _ _ eq_refl eq_refl eq_refl) as [_ Htimeout].
    destruct Htimeout as (n & -> & _).
    + intros k _. reflexivity.
    + reflexivity.
Defined.

Lemma factor_selection_prompt_enumerates_witness :
  (Plugin._init_factor_selection (Sample.turn "alice" (Some "!select"))).1
  = Ok (need_info
          ("1) Device A" +:+ newline +:+ "2) Device B" +:+ newline
           +:+ "Select a factor: ")
          "user_factor_selection").
Proof.
  destruct (factor_selection_prompt_enumerates
              (Sample.turn "alice" (Some "!select"))
              Sample.device_a [Sample.device_b] _ eq_refl) as (-> & _ & _).
  reflexivity.
Defined.

Lemma select_command_turn_witness :
  (Plugin.do_authenticate (Sample.turn "alice" (Some "!select"))).1
  = Ok (need_info
          ("1) Device A" +:+ newline +:+ "2) Device B" +:+ newline
           +:+ "Select a factor: ")
          "user_factor_selection") ∧
  Plugin._enrolled_factors
    (Plugin.do_authenticate (Sample.turn "alice" (Some "!select"))).2
  = [(7, "Device A"); (9, "Device B")] ∧
  Plugin._factor_selection_in_progress
    (Plugin.do_authenticate (Sample.turn "alice" (Some "!select"))).2 = true.
Proof.
  destruct (select_command_turn (Sample.turn "alice" (Some "!select"))
              eq_refl eq_refl) as (_ & _ & _ & Hstart).
  rewrite (Hstart Sample.device_a [Sample.device_b] _ eq_refl
             ltac:(constructor) eq_refl).
  split; [reflexivity|]. split; reflexivity.
Defined.



Lemma do_authenticate_generic_deny_witness :
  (Plugin.do_authenticate (Sample.turn "bob" (Some "123456"))).1
  = Ok (deny "An error occured") ∧
  (Plugin.do_authenticate (Sample.turn "bob" (Some "123456"))).1
  ≠ Ok (deny "An error occurred") ∧
  Plugin.logged_errors (Plugin.do_authenticate (Sample.turn "bob" (Some "123456"))).2
  = [UserNotFound "No user found for user: bob based on attribute: username"] ∧
  (Plugin.do_authenticate Sample.unanswered_push).1
  = Ok (deny "An error occured") ∧
  Plugin.logged_errors (Plugin.do_authenticate Sample.unanswered_push).2
  = [TimeOutError "Push verification timed out"].
Proof.
  destruct (do_authenticate_generic_deny (Sample.turn "bob" (Some "123456"))
              _ _ eq_refl) as [Hdeny Hreason].
  split; [by rewrite Hdeny|]. split; [exact Hreason|].
  split; [by rewrite Hdeny|].
  assert (Htimeout : ∃ s, Plugin.do_authenticate_try Sample.unanswered_push
                          = (Raise (TimeOutError "Push verification timed out"), s)
                          ∧ Plugin.logged_errors s = []).
  { eexists. split; [vm_compute; reflexivity | reflexivity]. }
  destruct Htimeout as (s & Htry & Hlog).
  destruct (do_authenticate_generic_deny Sample.unanswered_push _ _ Htry)
    as [-> _].
  split; [reflexivity|]. simpl. by rewrite Hlog.
Defined.

(** The answers "0", "3" and "abc" of the specification, and a missing
    answer, against the two stored factors. *)
Example selection_answer_examples :
  ∀ answer, answer ∈ ["0"; "3"; "abc"] →
    (Plugin.do_authenticate
       (Sample.answering (Sample.answer_and_otp answer))).1
    = Ok (deny "Invalid selection") ∧
    Plugin._factor_selection_in_progress
      (Plugin.do_authenticate
         (Sample.answering
            (Sample.answer_and_otp answer))).2
    = false.
Proof.
  intros answer Hin. repeat (apply elem_of_cons in Hin as [-> | Hin]).
  - split; reflexivity.
  - split; reflexivity.
  - split; reflexivity.
  - by apply elem_of_nil in Hin.
Qed.

(** * Further properties of the authenticator *)

Section Lookups.
Import Authenticator.
Variable self : Authenticator.t.

Lemma _get_user_world username w :
  (_get_user self username w).2
  = record_call (CGetUsers (_user_attribute self) username) w.
Proof.
  unfold _get_user, client_get_users, bind, modify, ret, raise. simpl.
  destruct (get_users _ _ _) as [users|]; [|done].
  repeat case_decide; try done. by destruct (last users).
Qed.

Lemma _get_user_raises username w e w' :
  _get_user self username w = (Raise e, w') → is_lookup_error e = true.
Proof.
  unfold _get_user, client_get_users, bind, modify, ret, raise. simpl.
  destruct (get_users _ _ _) as [users|]; [|by intros [= <- _]].
  repeat case_decide; try by intros [= <- _].
  destruct users as [|u [|u' users]]; simpl in *; try lia. done.
Qed.

Lemma get_enrolled_factors_raises username w e w' :
  get_enrolled_factors self username w = (Raise e, w') →
  is_lookup_error e = true.
Proof.
  unfold get_enrolled_factors, bind.
  destruct (_get_user self username w) as [[user|e1] w1] eqn:Huser.
  - unfold client_get_enrolled_factors, bind, modify, ret, raise. simpl.
    destruct (get_enrolled_factors_of _ _); [done|]. by intros [= <- _].
  - intros [= <- _]. by apply _get_user_raises in Huser.
Qed.

Lemma get_enrolled_factors_same_time username w :
  same_time w (get_enrolled_factors self username w).2.
Proof.
  unfold get_enrolled_factors, bind.
  pose proof (_get_user_world username w) as Hw.
  destruct (_get_user self username w) as [[user|e1] w1]; simpl in Hw; subst w1.
  - unfold client_get_enrolled_factors, bind, modify, ret, raise. simpl.
    by destruct (get_enrolled_factors_of _ _).
  - done.
Qed.

(** X1: listing the enrolled factors.  When the user is not resolved the
    error of the resolution is raised and the provider is never asked for
    factors.  When the user is resolved, the provider's list is returned as
    it is, the empty list included, and a missing answer raises
    [APIResponseError] with the client's error description. *)
Theorem get_enrolled_factors_outcomes username w :
  (∀ e w1, _get_user self username w = (Raise e, w1) →
     get_enrolled_factors self username w = (Raise e, w1) ∧
     calls w1 = (calls w ++ [CGetUsers (_user_attribute self) username])%list) ∧
  (∀ user w1, _get_user self username w = (Ok user, w1) →
     let asked := record_call (CGetEnrolledFactors (user_id user)) w1 in
     (∀ factors,
        get_enrolled_factors_of (_client self) (user_id user) = Some factors →
        get_enrolled_factors self username w = (Ok factors, asked)) ∧
     (get_enrolled_factors_of (_client self) (user_id user) = None →
        get_enrolled_factors self username w
        = (Raise (APIResponseError (error_description (_client self))), asked))).
Proof.
  split.
  - intros e w1 Huser. unfold get_enrolled_factors, bind. rewrite Huser.
    split; [done|]. pose proof (_get_user_world username w) as Hw.
    rewrite Huser in Hw. simpl in Hw. by subst w1.
  - intros user w1 Huser. cbv zeta. unfold get_enrolled_factors, bind.
    rewrite Huser. unfold client_get_enrolled_factors, bind, modify, ret, raise.
    simpl. split; [intros factors Hf | intros Hf]; by rewrite Hf.
Qed.

Lemma _get_default_factor_raises username w e w' :
  _get_default_factor self username w = (Raise e, w') → is_lookup_error e = true.
Proof.
  unfold _get_default_factor, bind.
  destruct (get_enrolled_factors self username w) as [[factors|e1] w1] eqn:Hf.
  - destruct (next_default factors); [done|]. by intros [= <- _].
  - intros [= <- _]. by apply get_enrolled_factors_raises in Hf.
Qed.

Lemma _get_default_factor_same_time username w :
  same_time w (_get_default_factor self username w).2.
Proof.
  unfold _get_default_factor, bind.
  pose proof (get_enrolled_factors_same_time username w) as Hw.
  destruct (get_enrolled_factors self username w) as [[factors|e1] w1]; [|done].
  by destruct (next_default factors).
Qed.

Lemma factor_id_or_default_raises factor_id username w e w' :
  factor_id_or_default self factor_id username w = (Raise e, w') →
  is_lookup_error e = true.
Proof.
  assert (Hdefault : ∀ e w',
            (let! d := _get_default_factor self username in ret (device_id d)) w
            = (Raise e, w') → is_lookup_error e = true).
  { intros e0 w0. unfold bind.
    destruct (_get_default_factor self username w) as [[d|e1] w1] eqn:Hd; [done|].
    intros [= <- _]. by apply _get_default_factor_raises in Hd. }
  unfold factor_id_or_default. destruct factor_id as [f|]; [case_decide|]; eauto.
  done.
Qed.

Lemma factor_id_or_default_same_time factor_id username w :
  same_time w (factor_id_or_default self factor_id username w).2.
Proof.
  assert (Hdefault :
            same_time w
              ((let! d := _get_default_factor self username in ret (device_id d)) w).2).
  { unfold bind. pose proof (_get_default_factor_same_time username w) as Hw.
    by destruct (_get_default_factor self username w) as [[d|e1] w1]. }
  unfold factor_id_or_default. destruct factor_id as [f|]; [case_decide|]; eauto.
  done.
Qed.

End Lookups.

(** ** Every run of the polling loop *)

(** One round of the loop. *)
Lemma poll_loop_step self uid aid expires_at w :
  Authenticator.poll_loop self uid aid expires_at w =
  if decide (clock w < expires_at) then
    if String.eqb (poll_status self uid aid (npolls w)) "pending" then
      Authenticator.poll_loop self uid aid expires_at
        (advance Authenticator.PUSH_VERIFICATION_POLL_FREQUENCY
           (after_poll self uid aid w))
    else (verdict (poll_status self uid aid (npolls w)),
          after_poll self uid aid w)
  else (Raise (TimeOutError "Push verification timed out"), w).
Proof.
  rewrite poll_loop_unfold. cbv zeta. unfold verdict.
  by repeat case_match.
Qed.

Section PollingRuns.
Import Authenticator.
Variable self : Authenticator.t.
Variables uid aid expires_at : Z.

(** Reasoning on the runs of the loop: at or after the deadline it stops, a
    status that is not pending decides, a pending status leads to the next
    round. *)
Lemma poll_loop_run_ind (P : World → Result bool * World → Prop) :
  (∀ w, ¬ clock w < expires_at →
     P w (Raise (TimeOutError "Push verification timed out"), w)) →
  (∀ w, clock w < expires_at →
     poll_status self uid aid (npolls w) ≠ "pending" →
     P w (verdict (poll_status self uid aid (npolls w)),
          after_poll self uid aid w)) →
  (∀ w, clock w < expires_at →
     poll_status self uid aid (npolls w) = "pending" →
     let next :=
       advance PUSH_VERIFICATION_POLL_FREQUENCY (after_poll self uid aid w) in
     P next (poll_loop self uid aid expires_at next) →
     P w (poll_loop self uid aid expires_at next)) →
  ∀ w, P w (poll_loop self uid aid expires_at w).
Proof.
  intros Hstop Hdecide Hnext w.
  remember (Z.to_nat (expires_at - clock w)) as left_ eqn:Hleft.
  revert w Hleft. induction left_ as [left_ IH] using lt_wf_ind.
  intros w Hleft. rewrite poll_loop_step.
  destruct (decide (clock w < expires_at)) as [Hnow|Hnow]; [|by apply Hstop].
  cbv zeta.
  destruct (String.eqb (poll_status self uid aid (npolls w)) "pending") eqn:Hs.
  - apply String.eqb_eq in Hs. apply Hnext; [done..|].
    apply (IH (Z.to_nat (expires_at
                         - clock (advance PUSH_VERIFICATION_POLL_FREQUENCY
                                    (after_poll self uid aid w))))); [|done].
    subst left_. unfold PUSH_VERIFICATION_POLL_FREQUENCY. simpl. lia.
  - apply String.eqb_neq in Hs. by apply Hdecide.
Qed.

Lemma verdict_returns s b : verdict s = Ok b → s = status_of b.
Proof.
  unfold verdict, status_of.
  destruct (String.eqb s "accepted") eqn:Ha;
    [apply String.eqb_eq in Ha; by intros [= <-]|].
  destruct (String.eqb s "rejected") eqn:Hr; [|done].
  apply String.eqb_eq in Hr. by intros [= <-].
Qed.

Lemma poll_loop_returns w b :
  (poll_loop self uid aid expires_at w).1 = Ok b →
  ∃ n, (∀ k, (k < n)%nat → poll_status self uid aid (npolls w + k) = "pending")
       ∧ poll_status self uid aid (npolls w + n) = status_of b
       ∧ clock w + poll_started (poll_latency (_client self)) (npolls w) n
         < expires_at.
Proof.
  revert b. pattern w, (poll_loop self uid aid expires_at w).
  apply poll_loop_run_ind; clear w.
  - done.
  - intros w Hnow Hs b Hb. simpl in Hb. apply verdict_returns in Hb.
    exists O. rewrite Nat.add_0_r. simpl. split; [lia|]. split; [done|lia].
  - intros w Hnow Hs next IH b Hb. destruct (IH b Hb) as (n & Hpending & Hn & Hin).
    exists (S n). subst next. simpl in *. split; [|split].
    + intros [|k] Hk; [by rewrite Nat.add_0_r|].
      replace (npolls w + S k)%nat with (S (npolls w + k)) by lia.
      apply Hpending. lia.
    + by replace (npolls w + S n)%nat with (S (npolls w + n)) by lia.
    + lia.
Qed.

(** No round starts at or after the deadline: a loop that made [m] polls had
    its last poll start before it, more than [m - 1] sleeps after the
    first check. *)
Lemma poll_loop_polls w :
  let final := (poll_loop self uid aid expires_at w).2 in
  (npolls w ≤ npolls final)%nat ∧
  (npolls final = npolls w ∨
   PUSH_VERIFICATION_POLL_FREQUENCY * (Z.of_nat (npolls final - npolls w) - 1)
   < expires_at - clock w).
Proof.
  cbv zeta. pattern w, (poll_loop self uid aid expires_at w).
  apply poll_loop_run_ind; clear w.
  - intros w _. simpl. split; [lia|by left].
  - intros w Hnow _. simpl. split; [lia|right].
    unfold PUSH_VERIFICATION_POLL_FREQUENCY. lia.
  - intros w Hnow _ next [Hle Hm]. subst next. simpl in *.
    unfold PUSH_VERIFICATION_POLL_FREQUENCY in *. split; [lia|right].
    destruct Hm as [Hm|Hm]; lia.
Qed.

End PollingRuns.

(** ** Every run of the two verifications *)

Section Verifications.
Import Authenticator.
Variable self : Authenticator.t.

(** A push verification either fails before any poll, with a lookup error,
    or runs the loop for an activation the provider granted. *)
Lemma push_authenticate_cases username factor_id w :
  (∃ e w', push_authenticate self username factor_id w = (Raise e, w')
           ∧ is_lookup_error e = true ∧ same_time w w')
  ∨ (∃ user fid w2 activation,
       same_time w w2
       ∧ activate_factor (_client self) (user_id user) fid
           (Some PUSH_VERIFICATION_POLL_TIMEOUT) = Some activation
       ∧ push_authenticate self username factor_id w
         = poll_loop self (user_id user) (activation_id activation)
             (clock w + PUSH_VERIFICATION_POLL_TIMEOUT)
             (record_call (CActivateFactor (user_id user) fid
                             (Some PUSH_VERIFICATION_POLL_TIMEOUT)) w2)).
Proof.
  unfold push_authenticate, bind.
  pose proof (_get_user_world self username w) as Hw1.
  destruct (_get_user self username w) as [[user|e] w1] eqn:Huser;
    simpl in Hw1; subst w1.
  2:{ left. eexists _, _. split; [done|].
      split; [by apply _get_user_raises in Huser | done]. }
  pose proof (factor_id_or_default_same_time self factor_id username
                (record_call (CGetUsers (_user_attribute self) username) w))
    as Hw2.
  destruct (factor_id_or_default self factor_id username _)
    as [[fid|e] w2] eqn:Hfid; simpl in Hw2.
  2:{ left. eexists _, _. split; [done|].
      split; [by apply factor_id_or_default_raises in Hfid | done]. }
  unfold _activate_factor, client_activate_factor, bind, modify, ret, raise, now.
  simpl.
  destruct (activate_factor (_client self) (user_id user) fid
              (Some PUSH_VERIFICATION_POLL_TIMEOUT)) as [activation|] eqn:Hact.
  - right. exists user, fid, w2, activation. split; [done|]. split; [done|].
    simpl. destruct Hw2 as [Hclock _]. by rewrite Hclock.
  - left. eexists _, _. split; [done|]. split; [done|]. done.
Qed.

(** X2: a push whose activation the provider does not grant.  The
    verification raises [APIResponseError] with the client's error
    description; the request is journalled and the provider is not polled. *)
Theorem push_authenticate_not_activated username factor_id w user w1 fid w2 :
  _get_user self username w = (Ok user, w1) →
  factor_id_or_default self factor_id username w1 = (Ok fid, w2) →
  activate_factor (_client self) (user_id user) fid
    (Some PUSH_VERIFICATION_POLL_TIMEOUT) = None →
  let r := push_authenticate self username factor_id w in
  r.1 = Raise (APIResponseError (error_description (_client self))) ∧
  calls r.2
  = (calls w2 ++ [CActivateFactor (user_id user) fid
                    (Some PUSH_VERIFICATION_POLL_TIMEOUT)])%list ∧
  npolls r.2 = npolls w2 ∧ clock r.2 = clock w2.
Proof.
  intros Huser Hfid Hact. cbv zeta. unfold push_authenticate.
  rewrite (bind_ok _ _ _ _ _ Huser), (bind_ok _ _ _ _ _ Hfid).
  unfold _activate_factor, client_activate_factor, bind, modify, ret, raise.
  simpl. by rewrite Hact.
Qed.

(** X3: the polls of one push verification are bounded.  Whatever the
    provider answers and however long its answers take, a push verification
    polls at most twelve times, the number of poll intervals in the
    timeout. *)
Theorem push_authenticate_polls_bounded username factor_id w :
  let r := push_authenticate self username factor_id w in
  (npolls w ≤ npolls r.2)%nat ∧
  Z.of_nat (npolls r.2 - npolls w)
  ≤ PUSH_VERIFICATION_POLL_TIMEOUT / PUSH_VERIFICATION_POLL_FREQUENCY.
Proof.
  cbv zeta. unfold PUSH_VERIFICATION_POLL_TIMEOUT, PUSH_VERIFICATION_POLL_FREQUENCY.
  change (60 / 5) with 12.
  destruct (push_authenticate_cases username factor_id w)
    as [(e & w' & -> & _ & _ & Hpolls)
       |(user & fid & w2 & activation & [Hclock Hpolls] & _ & ->)].
  - cbn [snd]. rewrite Hpolls. lia.
  - pose proof (poll_loop_polls self (user_id user) (activation_id activation)
                  (clock w + PUSH_VERIFICATION_POLL_TIMEOUT)
                  (record_call (CActivateFactor (user_id user) fid
                                  (Some PUSH_VERIFICATION_POLL_TIMEOUT)) w2))
      as [Hle Hm].
    unfold PUSH_VERIFICATION_POLL_TIMEOUT, PUSH_VERIFICATION_POLL_FREQUENCY in *.
    simpl in Hle, Hm. rewrite Hpolls, Hclock in *. split; [done|].
    destruct Hm as [Hm|Hm]; [rewrite Hm|]; lia.
Qed.

(** X4: a push verification answers only what the provider decided.  When
    it returns a boolean, an activation was granted and its first poll
    that was not pending reported "accepted" for true and "rejected" for
    false, and that poll started before the deadline. *)
Theorem push_authenticate_returns username factor_id w b w' :
  push_authenticate self username factor_id w = (Ok b, w') →
  ∃ user fid activation n,
    activate_factor (_client self) (user_id user) fid
      (Some PUSH_VERIFICATION_POLL_TIMEOUT) = Some activation ∧
    (∀ k, (k < n)%nat →
       poll_status self (user_id user) (activation_id activation) (npolls w + k)
       = "pending") ∧
    poll_status self (user_id user) (activation_id activation) (npolls w + n)
    = status_of b ∧
    poll_started (poll_latency (_client self)) (npolls w) n
    < PUSH_VERIFICATION_POLL_TIMEOUT.
Proof.
  intros Hrun.
  destruct (push_authenticate_cases username factor_id w)
    as [(e & w0 & Hraise & _)
       |(user & fid & w2 & activation & [Hclock Hpolls] & Hact & Hloop)];
    [congruence|].
  rewrite Hloop in Hrun.
  destruct (poll_loop_returns self (user_id user) (activation_id activation)
              (clock w + PUSH_VERIFICATION_POLL_TIMEOUT)
              (record_call (CActivateFactor (user_id user) fid
                              (Some PUSH_VERIFICATION_POLL_TIMEOUT)) w2) b)
    as (n & Hpending & Hn & Hin); [by rewrite Hrun|].
  simpl in Hpending, Hn, Hin. rewrite Hpolls in *. rewrite Hclock in Hin.
  exists user, fid, activation, n. repeat split; [done..|lia].
Qed.

(** X16: the timeout is never early.  A push verification raises
    [TimeOutError] only at a check of the clock made sixty seconds or more
    after the activation was granted, and its message is fixed. *)
Theorem push_authenticate_timeout_late username factor_id w message :
  (push_authenticate self username factor_id w).1 = Raise (TimeOutError message) →
  clock w + PUSH_VERIFICATION_POLL_TIMEOUT
  ≤ clock (push_authenticate self username factor_id w).2 ∧
  message = "Push verification timed out".
Proof.
  destruct (push_authenticate_cases username factor_id w)
    as [(e & w0 & -> & Herr & _)
       |(user & fid & w2 & activation & _ & _ & ->)].
  { simpl. intros [= ->]. done. }
  generalize (record_call (CActivateFactor (user_id user) fid
                             (Some PUSH_VERIFICATION_POLL_TIMEOUT)) w2).
  intros started.
  pattern started, (poll_loop self (user_id user) (activation_id activation)
                      (clock w + PUSH_VERIFICATION_POLL_TIMEOUT) started).
  apply poll_loop_run_ind.
  - intros w1 Hlate [= <-]. simpl. split; [lia|done].
  - intros w1 _ _ Hraise. simpl in Hraise. unfold verdict in Hraise.
    by repeat case_match.
  - intros w1 _ _ next IH. exact IH.
Qed.

Lemma otp_authenticate_raises username otp factor_id w e w' :
  otp_authenticate self username otp factor_id w = (Raise e, w') →
  is_lookup_error e = true.
Proof.
  unfold otp_authenticate, bind.
  destruct (_get_user self username w) as [[user|e1] w1] eqn:Huser.
  2:{ intros [= <- _]. by apply _get_user_raises in Huser. }
  destruct (factor_id_or_default self factor_id username w1)
    as [[fid|e1] w2] eqn:Hfid.
  - done.
  - intros [= <- _]. by apply factor_id_or_default_raises in Hfid.
Qed.

(** X5: the errors of the lookups and of the OTP verification are those
    of [lib/exceptions.py].  Listing the factors, finding the default
    factor and verifying a one-time code raise only [APIResponseError],
    [UserNotFound] or [FactorNotFound]: never [OneLoginClientError] or
    [TimeOutError], and never a builtin error, the [users.pop()] of
    [_get_user] meeting no empty list. *)
Theorem authenticator_errors username otp factor_id w e :
  ((get_enrolled_factors self username w).1 = Raise e →
     is_lookup_error e = true) ∧
  ((_get_default_factor self username w).1 = Raise e →
     is_lookup_error e = true) ∧
  ((otp_authenticate self username otp factor_id w).1 = Raise e →
     is_lookup_error e = true) ∧
  (is_lookup_error e = true →
     is_PluginError e = true ∧
     (∀ m, e ≠ OneLoginClientError m) ∧ (∀ m, e ≠ TimeOutError m)).
Proof.
  split; [|split; [|split]].
  - destruct (get_enrolled_factors self username w) as [r w'] eqn:Hrun.
    simpl. intros ->. by eapply get_enrolled_factors_raises.
  - destruct (_get_default_factor self username w) as [r w'] eqn:Hrun.
    simpl. intros ->. by eapply _get_default_factor_raises.
  - destruct (otp_authenticate self username otp factor_id w) as [r w'] eqn:Hrun.
    simpl. intros ->. by eapply otp_authenticate_raises.
  - by destruct e.
Qed.

Lemma otp_authenticate_returns username otp factor_id w b w' :
  otp_authenticate self username otp factor_id w = (Ok b, w') →
  ∃ uid fid, b = verify_factor (_client self) uid fid otp
             ∧ last (calls w') = Some (CVerifyFactor uid fid otp).
Proof.
  unfold otp_authenticate, bind.
  destruct (_get_user self username w) as [[user|e1] w1]; [|done].
  destruct (factor_id_or_default self factor_id username w1)
    as [[fid|e1] w2]; [|done].
  unfold client_verify_factor, bind, modify, ret. simpl. intros [= <- <-].
  exists (user_id user), fid. split; [done|]. simpl. apply last_snoc.
Qed.

Lemma get_enrolled_factors_journal username w :
  ∃ l, calls (get_enrolled_factors self username w).2 = (calls w ++ l)%list
       ∧ Forall (λ c, is_lookup c = true) l.
Proof.
  unfold get_enrolled_factors, bind.
  pose proof (_get_user_world self username w) as Hw.
  destruct (_get_user self username w) as [[user|e1] w1]; simpl in Hw; subst w1.
  - unfold client_get_enrolled_factors, bind, modify, ret, raise. simpl.
    exists [CGetUsers (_user_attribute self) username;
            CGetEnrolledFactors (user_id user)].
    split; [|by repeat constructor].
    destruct (get_enrolled_factors_of _ _); simpl; by rewrite <- app_assoc.
  - exists [CGetUsers (_user_attribute self) username].
    split; [done|by repeat constructor].
Qed.

End Verifications.

(** * Further properties of the dialogue *)

Section Turns.
Import Plugin.
Variable self : Plugin.t.

Lemma _init_factor_selection_raises e w :
  Authenticator.get_enrolled_factors (_authenticator self) (mfa_identity self)
    (world self) = (Raise e, w) →
  _init_factor_selection self = (Raise e, set_world w self).
Proof.
  intros Hlist. unfold _init_factor_selection, call, bind, get. simpl.
  by rewrite Hlist.
Qed.

Lemma do_authenticate_try_outcome :
  try_outcome self (do_authenticate_try self).1 (do_authenticate_try self).2.
Proof.
  unfold do_authenticate_try, bind, get.
  destruct (_factor_selection_in_progress self) eqn:Hprogress.
  - (* the answer to the selection prompt *)
    destruct (key_value_pairs (connection self) !! "user_factor_selection")
      as [s|] eqn:Hs;
      [|rewrite _finish_factor_selection_invalid; [by constructor|by left]].
    destruct (int_of_string s) as [n|] eqn:Hn;
      [|rewrite _finish_factor_selection_invalid;
        [by constructor|right; left; eauto]].
    destruct (decide (n < 1)) as [Hlow|Hpos].
    { rewrite _finish_factor_selection_invalid; [by constructor|].
      right; right. exists s, n. rewrite Hs. auto. }
    destruct (_enrolled_factors self !! Z.to_nat (n - 1)) as [factor|] eqn:Hf.
    + rewrite (_finish_factor_selection_valid self s n factor Hs Hn
                 ltac:(lia) Hf).
      apply list_elem_of_lookup_2 in Hf.
      unfold key_value_pairs_pop, _ask_mfa_password, bind, get, modify, ret, raise.
      simpl.
      destruct (key_value_pairs (connection self) !! "otp") as [otp|] eqn:Hotp.
      * by eapply answer_stored.
      * by apply answer_without_otp.
    + apply lookup_ge_None_1 in Hf.
      rewrite _finish_factor_selection_invalid; [by constructor|].
      right; right. exists s, n. rewrite Hs. split; [done|].
      split; [done|]. lia.
  - destruct (password_given (mfa_password self)) eqn:Hgiven.
    + destruct (mfa_password self) as [password|] eqn:Hpassword; [|done].
      simpl in Hgiven. apply negb_true_iff, String.eqb_neq in Hgiven.
      case_bool_decide as Hselect.
      * (* the selection command *)
        injection Hselect as ->.
        unfold _run_factor_selection_command, bind, get.
        destruct (_factor_selection_enabled self); simpl;
          [|by apply select_disabled].
        destruct (_factor_selection_supported self); simpl;
          [|by apply select_unsupported].
        destruct (Authenticator.get_enrolled_factors (_authenticator self)
                    (mfa_identity self) (world self))
          as [[[|f factors]|e] w] eqn:Hlist.
        -- rewrite (_init_factor_selection_none self w Hlist).
           by apply select_nothing.
        -- rewrite (_init_factor_selection_some self f factors w Hlist).
           by apply select_started.
        -- rewrite (_init_factor_selection_raises e w Hlist).
           by apply select_failed.
      * (* a one-time code *)
        unfold call, bind, ret. simpl.
        destruct (Authenticator.otp_authenticate (_authenticator self)
                    (mfa_identity self) password
                    (_user_selected_factor_id self) (world self))
          as [r w] eqn:Hrun.
        assert (Hturn := otp_turn self password r w Hprogress Hpassword Hgiven
                           ltac:(congruence) Hrun).
        by destruct r as [[|]|e].
    + (* no credential: the push *)
      unfold call, bind, ret.
      destruct (Authenticator.push_authenticate (_authenticator self)
                  (mfa_identity self) (_user_selected_factor_id self)
                  (world self)) as [r w] eqn:Hrun.
      assert (Hturn := push_turn self r w Hprogress Hgiven Hrun).
      by destruct r as [[|]|e].
Qed.

End Turns.

(** ** Positions are read back as they are printed *)

Lemma digit_value_pretty_N_char (d : N) :
  (d < 10)%N → digit_value (pretty_N_char d) = Some (Z.of_N d).
Proof.
  intros Hd.
  assert (d = 0 ∨ d = 1 ∨ d = 2 ∨ d = 3 ∨ d = 4 ∨ d = 5 ∨ d = 6 ∨ d = 7
          ∨ d = 8 ∨ d = 9)%N as Hcases by lia.
  repeat (destruct Hcases as [-> | Hcases]; [reflexivity|]).
  by subst d.
Qed.

Lemma digit_is_not_space c : is_Some (digit_value c) → is_space c = false.
Proof.
  unfold digit_value, is_space. intros [d Hd].
  destruct (48 <=? nat_of_ascii c)%nat eqn:Hlow; [|done].
  destruct (nat_of_ascii c <=? 57)%nat eqn:Hhigh; [|done].
  apply Nat.leb_le in Hlow, Hhigh.
  apply orb_false_intro.
  - apply andb_false_intro2, Nat.leb_gt. lia.
  - apply Nat.eqb_neq. lia.
Qed.

Lemma lstrip_digits s : digits_only s → lstrip s = s.
Proof.
  destruct s as [|c rest]; [done|]. intros [Hc _]. simpl.
  by rewrite (digit_is_not_space c Hc).
Qed.

Lemma digits_only_rev_app s : ∀ t,
  digits_only s → digits_only t → digits_only (String.rev_app s t).
Proof.
  induction s as [|c s IH]; intros t Hs Ht; [done|].
  destruct Hs as [Hc Hs]. simpl. apply IH; [done|]. by split.
Qed.

Lemma rev_app_rev_app s : ∀ t u,
  String.rev_app (String.rev_app s t) u = String.rev_app t (s +:+ u).
Proof.
  induction s as [|c s IH]; intros t u; [done|]. simpl. by rewrite IH.
Qed.

Lemma strip_digits s : digits_only s → strip s = s.
Proof.
  intros Hs. unfold strip. rewrite (lstrip_digits s Hs).
  rewrite lstrip_digits by by apply digits_only_rev_app.
  unfold String.rev. rewrite rev_app_rev_app. apply append_empty_r.
Qed.

Lemma int_of_string_digits s :
  digits_only s → int_of_string s = int_digits 0 false s.
Proof.
  intros Hs. unfold int_of_string. rewrite (strip_digits s Hs).
  destruct s as [|c rest]; [done|]. destruct Hs as [[d Hc] _].
  destruct (Ascii.eqb_spec c "+") as [->|_]; [done|].
  by destruct (Ascii.eqb_spec c "-") as [->|_].
Qed.

Lemma digits_only_pretty_N_go x : ∀ s,
  digits_only s → digits_only (pretty_N_go x s).
Proof.
  induction (N.lt_wf_0 x) as [x _ IH]. intros s Hs.
  assert (x = 0 ∨ 0 < x)%N as [->|Hx] by lia; [done|].
  rewrite pretty_N_go_step by done. apply IH; [by apply N.div_lt|].
  split; [|done].
  rewrite digit_value_pretty_N_char; [done|]. by apply N.mod_lt.
Qed.

Lemma int_digits_pretty_N_go x : ∀ b s,
  (0 < x)%N →
  int_digits 0 b (pretty_N_go x s) = int_digits (Z.of_N x) true s.
Proof.
  induction (N.lt_wf_0 x) as [x _ IH]. intros b s Hx.
  rewrite pretty_N_go_step by done.
  pose proof (N.div_mod x 10 ltac:(done)) as Hsplit.
  pose proof (N.mod_lt x 10 ltac:(done)) as Hdigit.
  assert (x `div` 10 = 0 ∨ 0 < x `div` 10)%N as [Hhigh|Hhigh] by lia.
  - rewrite Hhigh, pretty_N_go_0. simpl.
    rewrite digit_value_pretty_N_char by done. f_equal. lia.
  - rewrite IH; [|by apply N.div_lt|done]. simpl.
    rewrite digit_value_pretty_N_char by done. f_equal. lia.
Qed.

(** The decimal numeral of a natural number reads back as that number. *)
Lemma int_of_string_pretty (n : nat) :
  int_of_string (pretty n) = Some (Z.of_nat n).
Proof.
  unfold pretty, pretty_nat, pretty, pretty_N.
  case_decide as Hzero; [by replace n with O by lia|].
  rewrite int_of_string_digits by by apply digits_only_pretty_N_go.
  rewrite int_digits_pretty_N_go by lia. simpl. f_equal. lia.
Qed.

(** ** Every turn *)

Section EveryTurn.
Import Plugin.
Variable self : Plugin.t.

Lemma do_authenticate_handled :
  do_authenticate self
  = match do_authenticate_try self with
    | (Ok decision, after) => (Ok decision, after)
    | (Raise e, after) =>
        (Ok (deny "An error occured"),
         set_logged_errors (logged_errors after ++ [e]) after)
    end.
Proof.
  unfold do_authenticate, try_except.
  by destruct (do_authenticate_try self) as [[decision|e] after].
Qed.

Ltac turn_cases self :=
  let r := fresh "r" in
  let after := fresh "after" in
  let Hout := fresh "Hout" in
  pose proof (do_authenticate_try_outcome self) as Hout;
  rewrite do_authenticate_handled in *;
  destruct (do_authenticate_try self) as [r after]; simpl in Hout;
  inversion Hout as
    [Hprogress
    |factor otp Hprogress Hin Hotp
    |factor Hprogress Hin Hotp
    |Hprogress Hpassword
    |Hprogress Hpassword
    |e w Hprogress Hpassword Hlist
    |w Hprogress Hpassword Hlist
    |f factors w Hprogress Hpassword Hlist
    |password r0 w Hprogress Hpassword Hnonempty Hnotselect Hrun
    |r0 w Hprogress Hgiven Hrun];
  subst;
  [..|destruct r0 as [[|]|e]|destruct r0 as [[|]|e]];
  simpl in *.

(** X6: every turn ends with a decision, in a fixed wording.  No
    exception leaves [do_authenticate].  The reason of an accept or of a
    deny is one of the literals of the source, so no text of an error, of
    the provider or of the user enters it; a request for more input is the
    host's question or, under the key "user_factor_selection", the
    enumeration of the factors just stored. *)
Theorem do_authenticate_wording :
  ∃ decision,
    (do_authenticate self).1 = Ok decision ∧
    match decision with
    | accept reason => reason ∈ accept_reasons
    | deny reason => reason ∈ deny_reasons
    | need_info question key =>
        (question = mfa_question self ∧ key = mfa_question_key self)
        ∨ (key = "user_factor_selection"
           ∧ question
             = enumerated_prompt (_enrolled_factors (do_authenticate self).2))
    end.
Proof.
  pose proof (do_authenticate_try_outcome self) as Hout.
  rewrite do_authenticate_handled.
  destruct (do_authenticate_try self) as [r after]. simpl in Hout.
  unfold accept_reasons, deny_reasons.
  inversion Hout as [| | | | | | | |password r0 w|r0 w]; subst; simpl;
    try (eexists; split; [reflexivity|]; simpl; set_solver).
  - destruct r0 as [[|]|e]; simpl;
      (eexists; split; [reflexivity|]; simpl; set_solver).
  - destruct r0 as [[|]|e]; simpl;
      (eexists; split; [reflexivity|]; simpl; set_solver).
Qed.

(** X7: the generic deny and the error log go together.  A turn appends
    one error to the log when, and only when, it is denied with the reason
    of the top-level handler; any other decision leaves the log as it
    was. *)
Theorem generic_deny_iff_logged :
  let r := do_authenticate self in
  (r.1 = Ok (deny "An error occured") →
     ∃ e, logged_errors r.2 = (logged_errors self ++ [e])%list) ∧
  (r.1 ≠ Ok (deny "An error occured") →
     logged_errors r.2 = logged_errors self).
Proof.
  cbv zeta. turn_cases self;
    (split; [intros Hdeny; try discriminate Hdeny; by eexists
            |intros Hother; try done; by destruct Hother]).
Qed.

(** X8: what a turn does to the buffered answers.  No turn adds an
    answer or changes one: every key other than "otp" keeps its value.
    Outside a selection the store is left as it is.  A turn that answers
    the selection prompt either leaves it as it is or, when it goes on to
    ask for the credential, deletes the entry "otp" that was buffered. *)
Theorem do_authenticate_frame :
  let answers := key_value_pairs (connection self) in
  let answers_after :=
    key_value_pairs (connection (do_authenticate self).2) in
  (∀ key, key ≠ "otp" → answers_after !! key = answers !! key) ∧
  (_factor_selection_in_progress self = false → answers_after = answers) ∧
  (answers_after = answers
   ∨ (_factor_selection_in_progress self = true
      ∧ is_Some (answers !! "otp")
      ∧ answers_after = delete "otp" answers
      ∧ (do_authenticate self).1
        = Ok (need_info (mfa_question self) (mfa_question_key self)))).
Proof.
  cbv zeta. turn_cases self;
    (split; [intros key Hkey; try done; by apply lookup_delete_ne
            |split; [intros Hno; try done; congruence
                    |(by left) || (right; by eauto)]]).
Qed.

(** X9: how a turn moves the three cookie properties.  The selection is in
    progress after a turn only if that turn was a "!select" command outside
    a selection, and then a non-empty factor list is stored and the decision
    is its enumeration; the stored factor list changes on no other turn;
    and the selected factor id is kept, unless the turn answers the
    selection prompt and then it is the id of one of the stored factors. *)
Theorem do_authenticate_cookie :
  let r := do_authenticate self in
  (_factor_selection_in_progress r.2 = true →
     _factor_selection_in_progress self = false ∧
     mfa_password self = Some "!select" ∧
     _enrolled_factors r.2 ≠ [] ∧
     r.1 = Ok (need_info (enumerated_prompt (_enrolled_factors r.2))
                 "user_factor_selection")) ∧
  (_enrolled_factors r.2 = _enrolled_factors self
   ∨ _factor_selection_in_progress r.2 = true) ∧
  (_user_selected_factor_id r.2 = _user_selected_factor_id self
   ∨ (_factor_selection_in_progress self = true
      ∧ ∃ factor, factor ∈ _enrolled_factors self
                  ∧ _user_selected_factor_id r.2 = Some factor.1)).
Proof.
  cbv zeta. turn_cases self;
    (split; [intros Hset; try congruence; try discriminate Hset
            |split; [(by left) || (by right) | (by left) || (right; eauto)]]).
  done.
Qed.

(** X10: a turn is accepted only on the provider's word.  An accept is
    never given while a selection is in progress nor on the "!select"
    command.  With a credential, the last call before the accept is the
    verification of that very credential, and the provider answered true;
    without one, an activation was granted and one of its polls reported
    "accepted". *)
Theorem do_authenticate_accepts reason :
  (do_authenticate self).1 = Ok (accept reason) →
  _factor_selection_in_progress self = false ∧
  ((∃ password uid fid,
      mfa_password self = Some password ∧ password ≠ "" ∧ password ≠ "!select" ∧
      verify_factor (Authenticator._client (_authenticator self)) uid fid password
      = true ∧
      last (calls (world (do_authenticate self).2))
      = Some (CVerifyFactor uid fid password) ∧
      reason = "OTP authentication successful")
   ∨ (password_given (mfa_password self) = false ∧
      reason = "Push verification successful" ∧
      ∃ uid fid activation k,
        activate_factor (Authenticator._client (_authenticator self)) uid fid
          (Some Authenticator.PUSH_VERIFICATION_POLL_TIMEOUT) = Some activation ∧
        poll_status (_authenticator self) uid (activation_id activation) k
        = "accepted")).
Proof.
  turn_cases self; intros Haccept; try discriminate Haccept;
    injection Haccept as <-; (split; [done|]).
  - left. destruct (otp_authenticate_returns _ _ _ _ _ _ _ Hrun)
      as (uid & fid & Hanswer & Hlast).
    exists password, uid, fid. by repeat split.
  - right. split; [done|]. split; [done|].
    destruct (push_authenticate_cases (_authenticator self) (mfa_identity self)
                (_user_selected_factor_id self) (world self))
      as [(e & w0 & Hraise & _)
         |(user & fid & w2 & activation & _ & Hact & Hloop)];
      [congruence|].
    rewrite Hloop in Hrun.
    destruct (poll_loop_returns (_authenticator self) (user_id user)
                (activation_id activation) _ _ true ltac:(by rewrite Hrun))
      as (n & _ & Hn & _).
    eexists (user_id user), fid, activation, _. split; [done|exact Hn].
Qed.

(** X11: the requests a turn sends to the provider.  A turn that answers
    the selection prompt sends none.  The "!select" command only looks the
    user and its factors up: the reserved word is never submitted as a
    one-time code, and no push is started for it. *)
Theorem do_authenticate_requests :
  let after := (do_authenticate self).2 in
  (_factor_selection_in_progress self = true → world after = world self) ∧
  (mfa_password self = Some "!select" →
     ∃ l, calls (world after) = (calls (world self) ++ l)%list
          ∧ Forall (λ c, is_lookup c = true) l
          ∧ same_time (world self) (world after)).
Proof.
  cbv zeta.
  assert (Hlookup : ∀ r w,
            Authenticator.get_enrolled_factors (_authenticator self)
              (mfa_identity self) (world self) = (r, w) →
            ∃ l, calls w = (calls (world self) ++ l)%list
                 ∧ Forall (λ c, is_lookup c = true) l
                 ∧ same_time (world self) w).
  { intros r w Hlist.
    destruct (get_enrolled_factors_journal (_authenticator self)
                (mfa_identity self) (world self)) as (l & Hl & Hall).
    pose proof (get_enrolled_factors_same_time (_authenticator self)
                  (mfa_identity self) (world self)) as Htime.
    rewrite Hlist in Hl, Htime. by exists l. }
  assert (Hnone : ∃ l, calls (world self) = (calls (world self) ++ l)%list
                       ∧ Forall (λ c, is_lookup c = true) l
                       ∧ same_time (world self) (world self)).
  { exists []. by rewrite app_nil_r. }
  turn_cases self; (split; [intros Hp; congruence || done|]);
    intros Hselect; try congruence; eauto;
    by rewrite Hselect in Hgiven.
Qed.

End EveryTurn.

(** ** The verification turns *)

Lemma otp_authenticate_no_default self username user otp w factors :
  get_users (Authenticator._client self) (Authenticator._user_attribute self)
    username = Some [user] →
  get_enrolled_factors_of (Authenticator._client self) (user_id user)
  = Some factors →
  Authenticator.next_default factors = None →
  Authenticator.otp_authenticate self username otp None w
  = (Raise (FactorNotFound "No default MFA factor found"),
     record_call (CGetEnrolledFactors (user_id user))
       (record_call (CGetUsers (Authenticator._user_attribute self) username)
          (record_call (CGetUsers (Authenticator._user_attribute self) username)
             w))).
Proof.
  intros Huser Hfactors Hd. unfold Authenticator.otp_authenticate.
  rewrite (bind_ok _ _ _ _ _ (_get_user_single self username w user Huser)).
  unfold Authenticator.factor_id_or_default, Authenticator._get_default_factor,
    bind.
  rewrite (get_enrolled_factors_ok self username user Huser _ factors Hfactors).
  by rewrite Hd.
Qed.

Section VerificationTurns.
Import Plugin.
Variable self : Plugin.t.
Hypothesis not_in_progress : _factor_selection_in_progress self = false.

Lemma do_authenticate_try_otp password :
  mfa_password self = Some password → password ≠ "" → password ≠ "!select" →
  do_authenticate_try self
  = let run :=
      Authenticator.otp_authenticate (_authenticator self) (mfa_identity self)
        password (_user_selected_factor_id self) (world self) in
    (decision_of "OTP authentication successful" "OTP authentication failed" run.1,
     set_world run.2 self).
Proof.
  intros Hpassword Hnonempty Hnotselect. cbv zeta.
  unfold do_authenticate_try, bind, get. rewrite not_in_progress, Hpassword.
  simpl. apply String.eqb_neq in Hnonempty. rewrite Hnonempty. simpl.
  rewrite bool_decide_eq_false_2 by congruence.
  unfold call, ret.
  by destruct (Authenticator.otp_authenticate _ _ _ _ _) as [[[|]|e] w].
Qed.

Lemma do_authenticate_try_push :
  password_given (mfa_password self) = false →
  do_authenticate_try self
  = let run :=
      Authenticator.push_authenticate (_authenticator self) (mfa_identity self)
        (_user_selected_factor_id self) (world self) in
    (decision_of "Push verification successful" "Push verification failed" run.1,
     set_world run.2 self).
Proof.
  intros Hgiven. cbv zeta.
  unfold do_authenticate_try, bind, get. rewrite not_in_progress, Hgiven.
  unfold call, ret.
  by destruct (Authenticator.push_authenticate _ _ _ _) as [[[|]|e] w].
Qed.

Lemma otp_turn_selected password user f :
  mfa_password self = Some password → password ≠ "" → password ≠ "!select" →
  get_users (Authenticator._client (_authenticator self))
    (Authenticator._user_attribute (_authenticator self))
    (mfa_identity self) = Some [user] →
  _user_selected_factor_id self = Some f → f ≠ 0 →
  do_authenticate self
  = (Ok (if verify_factor (Authenticator._client (_authenticator self))
              (user_id user) f password
         then accept "OTP authentication successful"
         else deny "OTP authentication failed"),
     set_world
       (record_call (CVerifyFactor (user_id user) f password)
          (record_call
             (CGetUsers (Authenticator._user_attribute (_authenticator self))
                (mfa_identity self))
             (world self)))
       self).
Proof.
  intros Hpassword Hnonempty Hnotselect Huser Hselected Hf.
  rewrite do_authenticate_handled,
    (do_authenticate_try_otp password Hpassword Hnonempty Hnotselect).
  cbv zeta. rewrite Hselected.
  rewrite (otp_authenticate_with _ _ user Huser f _ password (Some f)
             (world self) (factor_id_or_default_given _ _ f _ Hf)).
  simpl. by destruct (verify_factor _ _ _ _).
Qed.

(** X12: a one-time code is checked against the selected factor.  For a
    resolved user, a credential that is neither empty nor "!select" is
    accepted exactly when the provider verifies it for the selected factor,
    or for the default factor when none is selected, and is denied with
    "OTP authentication failed" otherwise; when no factor is selected and
    none is the default, the turn ends in the generic deny and
    [FactorNotFound] is logged.  The cookie properties are unchanged. *)
Theorem otp_turn_factor password user :
  mfa_password self = Some password → password ≠ "" → password ≠ "!select" →
  let client := Authenticator._client (_authenticator self) in
  let looked_up :=
    CGetUsers (Authenticator._user_attribute (_authenticator self))
      (mfa_identity self) in
  let decision fid :=
    if verify_factor client (user_id user) fid password
    then accept "OTP authentication successful"
    else deny "OTP authentication failed" in
  get_users client (Authenticator._user_attribute (_authenticator self))
    (mfa_identity self) = Some [user] →
  (∀ f, _user_selected_factor_id self = Some f → f ≠ 0 →
     do_authenticate self
     = (Ok (decision f),
        set_world (record_call (CVerifyFactor (user_id user) f password)
                     (record_call looked_up (world self))) self)) ∧
  (∀ factors d,
     _user_selected_factor_id self = None →
     get_enrolled_factors_of client (user_id user) = Some factors →
     Authenticator.next_default factors = Some d →
     (do_authenticate self).1 = Ok (decision (device_id d))) ∧
  (∀ factors,
     _user_selected_factor_id self = None →
     get_enrolled_factors_of client (user_id user) = Some factors →
     Authenticator.next_default factors = None →
     (do_authenticate self).1 = Ok (deny "An error occured") ∧
     logged_errors (do_authenticate self).2
     = (logged_errors self ++ [FactorNotFound "No default MFA factor found"])%list).
Proof.
  intros Hpassword Hnonempty Hnotselect. cbv zeta. intros Huser.
  rewrite do_authenticate_handled,
    (do_authenticate_try_otp password Hpassword Hnonempty Hnotselect).
  cbv zeta. split; [|split].
  - intros f Hselected Hf. rewrite Hselected.
    rewrite (otp_authenticate_with _ _ user Huser f _ password (Some f)
               (world self) (factor_id_or_default_given _ _ f _ Hf)).
    simpl. by destruct (verify_factor _ _ _ _).
  - intros factors d Hselected Hfactors Hd. rewrite Hselected.
    rewrite (otp_authenticate_with _ _ user Huser (device_id d) _ password None
               (world self)
               (factor_id_or_default_absent _ _ user Huser _ factors d
                  Hfactors Hd)).
    simpl. by destruct (verify_factor _ _ _ _).
  - intros factors Hselected Hfactors Hd. rewrite Hselected.
    by rewrite (otp_authenticate_no_default _ _ user password (world self)
                  factors Huser Hfactors Hd).
Qed.

End VerificationTurns.

(** X13: an empty credential is no credential.  Outside a selection, a
    turn whose credential is the empty string runs the push verification,
    as a turn without credential does: both take the same decision, which
    is an accept exactly when the push verification returns true, and
    leave the same world. *)
Theorem empty_password_is_push (self : Plugin.t) :
  Plugin._factor_selection_in_progress self = false →
  let absent := Plugin.do_authenticate (with_password None self) in
  let empty := Plugin.do_authenticate (with_password (Some "") self) in
  let push :=
    Authenticator.push_authenticate (Plugin._authenticator self)
      (Plugin.mfa_identity self) (Plugin._user_selected_factor_id self)
      (Plugin.world self) in
  empty.1 = absent.1 ∧
  Plugin.world empty.2 = Plugin.world absent.2 ∧
  (absent.1 = Ok (accept "Push verification successful") ↔ push.1 = Ok true) ∧
  (absent.1 = Ok (deny "Push verification failed") ↔ push.1 = Ok false).
Proof.
  intros Hprogress. cbv zeta.
  rewrite !do_authenticate_handled.
  rewrite (do_authenticate_try_push (with_password None self) Hprogress eq_refl).
  rewrite (do_authenticate_try_push (with_password (Some "") self) Hprogress
             eq_refl).
  cbv zeta. simpl.
  destruct (Authenticator.push_authenticate _ _ _ _) as [[[|]|e] w]; simpl;
    repeat split; done.
Qed.

(** ** The selection dialogue *)

Lemma selection_position_stored (self : Plugin.t) k factor otp :
  Plugin._factor_selection_in_progress self = true →
  Plugin._enrolled_factors self !! k = Some factor →
  key_value_pairs (Plugin.connection self) !! "user_factor_selection"
  = Some (pretty (S k)) →
  key_value_pairs (Plugin.connection self) !! "otp" = Some otp →
  Plugin.do_authenticate self
  = (Ok (need_info (Plugin.mfa_question self) (Plugin.mfa_question_key self)),
     Plugin.set_connection (without_otp (Plugin.connection self))
       (Plugin.set_user_selected_factor_id (Some factor.1)
          (Plugin.set_factor_selection_in_progress false self))).
Proof.
  intros Hprogress Hfactor Hanswer Hotp.
  rewrite (do_authenticate_answer self Hprogress). unfold try_except.
  rewrite (_finish_factor_selection_valid self (pretty (S k)) (Z.of_nat (S k))
             factor Hanswer (int_of_string_pretty (S k)) ltac:(lia)).
  - unfold Plugin.key_value_pairs_pop, Plugin._ask_mfa_password, bind, get,
      modify, ret.
    simpl. by rewrite Hotp.
  - by replace (Z.to_nat (Z.of_nat (S k) - 1)) with k by lia.
Qed.

(** X14: the position printed in the prompt selects its factor.  While a
    selection is in progress, the prompt built from the stored factors shows
    each of them on a line of its own, after its position; answering with
    the position as it is printed stores the id of that factor, provided a
    one-time code is buffered under "otp". *)
Theorem prompt_position_selects (self : Plugin.t) k factor otp :
  Plugin._factor_selection_in_progress self = true →
  Plugin._enrolled_factors self !! k = Some factor →
  key_value_pairs (Plugin.connection self) !! "user_factor_selection"
  = Some (pretty (S k)) →
  key_value_pairs (Plugin.connection self) !! "otp" = Some otp →
  imap (λ i entry, prompt_line (S i) entry.2) (Plugin._enrolled_factors self) !! k
  = Some (pretty (S k) +:+ ") " +:+ factor.2 +:+ newline) ∧
  Plugin._factor_selection_prompt self
  = foldr String.append ""
      (imap (λ i entry, prompt_line (S i) entry.2) (Plugin._enrolled_factors self))
    +:+ "Select a factor: " ∧
  (Plugin.do_authenticate self).1
  = Ok (need_info (Plugin.mfa_question self) (Plugin.mfa_question_key self)) ∧
  Plugin._user_selected_factor_id (Plugin.do_authenticate self).2
  = Some factor.1.
Proof.
  intros Hprogress Hfactor Hanswer Hotp.
  rewrite (selection_position_stored self k factor otp Hprogress Hfactor
             Hanswer Hotp).
  split; [|split; [|by split]].
  - rewrite list_lookup_imap, Hfactor. reflexivity.
  - unfold Plugin._factor_selection_prompt. by rewrite prompt_loop_lines.
Qed.

Section Dialogue.
Import Plugin.
Variable self : Plugin.t.
Variables (user : User) (factors : list OTP_Device).
Hypothesis not_in_progress : _factor_selection_in_progress self = false.
Hypothesis select_command : mfa_password self = Some "!select".
Hypothesis enabled : _factor_selection_enabled self = true.
Hypothesis supported :
  protocol (connection self) ∈ FACTOR_SELECTION_SUPPORTED_PROTOCOLS.
Hypothesis one_user :
  get_users (Authenticator._client (_authenticator self))
    (Authenticator._user_attribute (_authenticator self)) (mfa_identity self)
  = Some [user].
Hypothesis enrolled :
  get_enrolled_factors_of (Authenticator._client (_authenticator self))
    (user_id user) = Some factors.

Lemma select_turn_started f :
  f ∈ factors →
  do_authenticate self
  = (Ok (need_info (enumerated_prompt (cookie_entry <$> factors))
           "user_factor_selection"),
     set_factor_selection_in_progress true
       (set_enrolled_factors (cookie_entry <$> factors)
          (set_world
             (record_call (CGetEnrolledFactors (user_id user))
                (record_call
                   (CGetUsers
                      (Authenticator._user_attribute (_authenticator self))
                      (mfa_identity self))
                   (world self)))
             self))).
Proof.
  intros Hf. rewrite (do_authenticate_select self not_in_progress select_command).
  unfold try_except, _run_factor_selection_command, bind, get.
  rewrite enabled. unfold _factor_selection_supported.
  rewrite bool_decide_eq_true_2 by done. simpl.
  destruct factors as [|f0 rest] eqn:Hfactors; [by apply elem_of_nil in Hf|].
  by rewrite (_init_factor_selection_some self f0 rest _
                (get_enrolled_factors_ok _ _ user one_user (world self)
                   (f0 :: rest) enrolled)).
Qed.

(** X15: the selection dialogue, turn after turn.  The "!select" command
    is answered by the enumeration of the user's factors.  On the next turn
    the host hands the cookie back with the answer; if the answer is the
    position printed for a factor, that factor's id is selected, the
    selection is over and the buffered "!select" is discarded.  On the turn
    after, if the id of the selected factor is not 0, a one-time code is
    accepted exactly when the provider verifies it for that factor (an id
    of 0 would fall back to the default factor). *)
Theorem selection_dialogue k f select_entry code :
  factors !! k = Some f →
  key_value_pairs (connection self) !! "otp" = Some select_entry →
  device_id f ≠ 0 → code ≠ "" → code ≠ "!select" →
  let first := do_authenticate self in
  let second :=
    do_authenticate
      (set_connection
         {| protocol := protocol (connection self);
            key_value_pairs :=
              <["user_factor_selection" := pretty (S k)]>
                (key_value_pairs (connection self)) |}
         first.2) in
  let third :=
    do_authenticate
      (with_password (Some code)
         (set_connection
            {| protocol := protocol (connection self);
               key_value_pairs :=
                 <["otp" := code]> (key_value_pairs (connection second.2)) |}
            second.2)) in
  first.1 = Ok (need_info (enumerated_prompt (cookie_entry <$> factors))
                  "user_factor_selection") ∧
  second.1 = Ok (need_info (mfa_question self) (mfa_question_key self)) ∧
  _user_selected_factor_id second.2 = Some (device_id f) ∧
  _factor_selection_in_progress second.2 = false ∧
  key_value_pairs (connection second.2) !! "otp" = None ∧
  third.1
  = Ok (if verify_factor (Authenticator._client (_authenticator self))
             (user_id user) (device_id f) code
        then accept "OTP authentication successful"
        else deny "OTP authentication failed").
Proof.
  intros Hf Hotp Hid Hnonempty Hnotselect. cbv zeta.
  rewrite (select_turn_started f (list_elem_of_lookup_2 _ _ _ Hf)).
  split; [done|]. cbn [snd].
  rewrite (selection_position_stored _ k (cookie_entry f) select_entry).
  - split; [done|]. split; [done|]. split; [done|]. cbn [fst snd].
    split; [simpl; apply lookup_delete_eq|].
    match goal with
    | |- (do_authenticate ?turn).1 = _ =>
        rewrite (otp_turn_selected turn eq_refl code user (device_id f))
    end; done.
  - done.
  - simpl. by rewrite list_lookup_fmap, Hf.
  - simpl. apply lookup_insert_eq.
  - simpl. by rewrite lookup_insert_ne.
Qed.

End Dialogue.

(** * The further properties at the sample provider *)

Lemma get_enrolled_factors_outcomes_witness :
  Authenticator.get_enrolled_factors Sample.authenticator "bob" Sample.world0
  = (Raise (UserNotFound "No user found for user: bob based on attribute: username"),
     {| clock := 1000; npolls := 0; calls := [CGetUsers "username" "bob"] |}) ∧
  (Authenticator.get_enrolled_factors Sample.authenticator "alice" Sample.world0).1
  = Ok [Sample.device_a; Sample.device_b].
Proof.
  destruct (get_enrolled_factors_outcomes Sample.authenticator "bob"
              Sample.world0) as [Hunresolved _].
  destruct (get_enrolled_factors_outcomes Sample.authenticator "alice"
              Sample.world0) as [_ Hresolved].
  split.
  - destruct (Hunresolved _ _ eq_refl) as [-> _]. reflexivity.
  - destruct (Hresolved _ _ eq_refl) as [Hlist _].
    by rewrite (Hlist [Sample.device_a; Sample.device_b] eq_refl).
Defined.

Lemma push_authenticate_not_activated_witness :
  (Authenticator.push_authenticate Sample.refusing_authenticator "alice" None
     Sample.world0).1 = Raise (APIResponseError "service unavailable") ∧
  npolls (Authenticator.push_authenticate Sample.refusing_authenticator "alice"
            None Sample.world0).2 = 0%nat.
Proof.
  destruct (push_authenticate_not_activated Sample.refusing_authenticator
              "alice" None Sample.world0 _ _ _ _ eq_refl eq_refl eq_refl)
    as (Hraise & _ & Hpolls & _).
  split; [exact Hraise | exact Hpolls].
Defined.

Lemma push_authenticate_returns_witness :
  ∃ user fid activation n,
    activate_factor Sample.client (user_id user) fid (Some 60) = Some activation ∧
    (∀ k, (k < n)%nat →
       poll_status Sample.authenticator (user_id user) (activation_id activation)
         (0 + k) = "pending") ∧
    poll_status Sample.authenticator (user_id user) (activation_id activation)
      (0 + n) = "accepted" ∧
    poll_started (λ _, 1) 0 n < 60.
Proof.
  eapply (push_authenticate_returns Sample.authenticator "alice" None
            Sample.world0 true).
  vm_compute. reflexivity.
Defined.

Lemma authenticator_errors_witness :
  is_lookup_error
    (UserNotFound "No user found for user: bob based on attribute: username")
  = true.
Proof.
  apply (authenticator_errors Sample.authenticator "bob" "123456" None
           Sample.world0).
  reflexivity.
Defined.

Lemma push_authenticate_timeout_late_witness :
  1060 ≤ clock (Authenticator.push_authenticate Sample.silent_authenticator
                  "alice" None Sample.world0).2.
Proof.
  apply (push_authenticate_timeout_late Sample.silent_authenticator "alice" None
           Sample.world0 "Push verification timed out").
  vm_compute. reflexivity.
Defined.

Lemma generic_deny_iff_logged_witness :
  ∃ e, Plugin.logged_errors
         (Plugin.do_authenticate (Sample.turn "bob" (Some "123456"))).2
       = [e].
Proof.
  apply (generic_deny_iff_logged (Sample.turn "bob" (Some "123456"))).
  reflexivity.
Defined.

Lemma do_authenticate_cookie_witness :
  Plugin._enrolled_factors
    (Plugin.do_authenticate (Sample.turn "alice" (Some "!select"))).2 ≠ [] ∧
  Plugin._user_selected_factor_id
    (Plugin.do_authenticate (Sample.answering (Sample.answer_and_otp "2"))).2
  = Some 9.
Proof.
  destruct (do_authenticate_cookie (Sample.turn "alice" (Some "!select")))
    as (Hprogress & _ & _).
  destruct (Hprogress eq_refl) as (_ & _ & Hstored & _).
  split; [exact Hstored|]. reflexivity.
Defined.

Lemma do_authenticate_accepts_witness :
  Plugin._factor_selection_in_progress (Sample.turn "alice" (Some "123456"))
  = false ∧
  last (calls (Plugin.world
                 (Plugin.do_authenticate (Sample.turn "alice" (Some "123456"))).2))
  = Some (CVerifyFactor 42 9 "123456").
Proof.
  destruct (do_authenticate_accepts (Sample.turn "alice" (Some "123456"))
              "OTP authentication successful" eq_refl) as [Hprogress _].
  split; [exact Hprogress | reflexivity].
Defined.

Lemma do_authenticate_requests_witness :
  Plugin.world
    (Plugin.do_authenticate (Sample.answering (Sample.answer_and_otp "2"))).2
  = Sample.world0.
Proof.
  apply (do_authenticate_requests (Sample.answering (Sample.answer_and_otp "2"))).
  reflexivity.
Defined.

Lemma otp_turn_factor_witness :
  Plugin.do_authenticate Sample.code_for_device_a
  = (Ok (deny "OTP authentication failed"),
     Plugin.set_world
       {| clock := 1000; npolls := 0;
          calls := [CGetUsers "username" "alice"; CVerifyFactor 42 7 "123456"] |}
       Sample.code_for_device_a).
Proof.
  destruct (otp_turn_factor Sample.code_for_device_a eq_refl "123456"
              {| user_id := 42 |} eq_refl ltac:(discriminate)
              ltac:(discriminate) eq_refl) as [Hselected _].
  exact (Hselected 7 eq_refl ltac:(discriminate)).
Defined.

Lemma empty_password_is_push_witness :
  (Plugin.do_authenticate (with_password (Some "") (Sample.turn "alice" None))).1
  = (Plugin.do_authenticate (with_password None (Sample.turn "alice" None))).1.
Proof.
  destruct (empty_password_is_push (Sample.turn "alice" None) eq_refl)
    as [Hsame _].
  exact Hsame.
Defined.

Lemma prompt_position_selects_witness :
  Plugin._user_selected_factor_id
    (Plugin.do_authenticate (Sample.answering (Sample.answer_and_otp "2"))).2
  = Some 9.
Proof.
  apply (prompt_position_selects (Sample.answering (Sample.answer_and_otp "2"))
           1 (9, "Device B") "!select");
    reflexivity.
Defined.

Lemma selection_dialogue_witness :
  (Plugin.do_authenticate Sample.select_typed).1
  = Ok (need_info
          ("1) Device A" +:+ newline +:+ "2) Device B" +:+ newline
           +:+ "Select a factor: ")
          "user_factor_selection").
Proof.
  destruct (selection_dialogue Sample.select_typed {| user_id := 42 |}
              [Sample.device_a; Sample.device_b] eq_refl eq_refl eq_refl
              ltac:(constructor) eq_refl eq_refl
              1 Sample.device_b "!select" "123456"
              eq_refl eq_refl ltac:(discriminate) ltac:(discriminate)
              ltac:(discriminate)) as (Hfirst & _).
  rewrite Hfirst. reflexivity.
Defined.

Lemma do_authenticate_frame_witness :
  key_value_pairs
    (Plugin.connection
       (Plugin.do_authenticate (Sample.answering (Sample.answer_and_otp "2"))).2)
  !! "user_factor_selection" = Some "2" ∧
  key_value_pairs
    (Plugin.connection (Plugin.do_authenticate Sample.select_typed).2)
  = {[ "otp" := "!select" ]}.
Proof.
  destruct (do_authenticate_frame
              (Sample.answering (Sample.answer_and_otp "2"))) as (Hkept & _).
  destruct (do_authenticate_frame Sample.select_typed) as (_ & Houtside & _).
  split.
  - rewrite (Hkept "user_factor_selection" ltac:(discriminate)). reflexivity.
  - rewrite (Houtside eq_refl). reflexivity.
Defined.
